(** * TARubrics front end: CSV export, API client and view handlers

    A shallow embedding of the JavaScript sources

    - [frontend/src/components/ResultsTable.jsx]   ([downloadCsv], the
      details button, what the component returns),
    - [frontend/src/api.js]                        (the five fetch wrappers),
    - [frontend/src/components/RoleCreationForm.jsx] ([handleSubmit]),
    - [frontend/src/components/RoleDetails.jsx]    ([fetchData],
      [handleResumeUpload], the effect and the render),
    - [frontend/src/components/ResumeUploader.jsx] ([handleSubmit]),
    - [frontend/src/components/RoleList.jsx]       ([fetchRoles], the render),

    together with the pieces of the JavaScript platform they call
    (property access, truthiness, [String], [Array.prototype.join],
    [Object.entries], [JSON.stringify], [FormData], [fetch], the state
    setters of [useState]).

    Conventions of the model.

    - A JavaScript value that reaches this code was produced by
      [response.json()], so it is a JSON value; [undefined] is added for
      the result of reading a property that is not there.
    - Text is a [string] of bytes (the UTF-8 form of the JavaScript
      string).  Every function of the sources that is modelled here treats
      a byte above 127 as an ordinary character, which is what the
      JavaScript functions do with the characters those bytes encode.
    - A number is an integer ([Z]); [Number_toString] is the decimal
      numeral, which is what JavaScript prints for an integer below 10^21
      in absolute value.
    - [ToString] is the text of a value whose conversion to a string
      returns.  The conversion throws on an object that has a [toString]
      of its own and on an array that holds one ([converts]).  [new_Error]
      has this failure; the other functions (the export, the details
      button, the form data, the addresses of the requests) make their
      texts with [ToString] and describe the code on the values that
      convert, which the statement that needs it assumes ([exportable]).
    - An exception is a name and a message; a computation that may throw
      returns a [Completion].
    - An asynchronous function is a finite tree of events ([Proc]); the
      environment of a run decides how each [fetch] settles and whether the
      user leaves the page while it is in flight.
    - A state setter of [useState] called after its component was
      unmounted does nothing, as in React 18, whose [createRoot] is what
      [main.jsx] calls. *)

From Stdlib Require Import ZArith NArith Bool Ascii String List Lia DecimalString.
From Stdlib Require Import Permutation.
Import ListNotations.

Local Open Scope list_scope.
Local Open Scope string_scope.

(* ===================================================================== *)
(** * 1. The JavaScript platform                                          *)
(* ===================================================================== *)

Module JS.

(** ** Characters that cannot be typed inside a string literal *)

Definition DQUOTE : ascii := "034"%char.
Definition BACKSLASH : ascii := "092"%char.

(** [dq s] is [s] with every apostrophe turned into a double quote: the
    expected CSV texts below are written with an apostrophe wherever the
    file has a double quote. *)
Fixpoint dq (s : string) : string :=
  match s with
  | EmptyString => EmptyString
  | String c s' => String (if Ascii.eqb c "039"%char then DQUOTE else c) (dq s')
  end.

(** ** Values *)

#[warnings="-register-all"]
Inductive value : Type :=
| VUndefined
| VNull
| VBool (b : bool)
| VNum (n : Z)
| VStr (s : string)
| VArr (elems : list value)
| VObj (props : list (string * value)).
(** The properties of [VObj] are listed in the order in which they were
    created (for a parsed JSON text: the order of the members), one entry
    per key; [lookup] reads the first entry of a key. *)

(** ** Exceptions and completions *)

Inductive error_name : Type := Error | TypeError | SyntaxError.

Record exn : Type := mkExn { name : error_name; message : string }.

Inductive Completion (A : Type) : Type :=
| Normal (a : A)
| Throw (e : exn).
Arguments Normal {A} a.
Arguments Throw {A} e.

Definition bind {A B} (c : Completion A) (k : A -> Completion B) : Completion B :=
  match c with
  | Normal a => k a
  | Throw e => Throw e
  end.

Declare Scope js_scope.
Delimit Scope js_scope with js.
Notation "x <- c ;; k" := (bind c (fun x => k))
  (at level 61, c at next level, right associativity) : js_scope.

Fixpoint mapM {A B} (f : A -> Completion B) (l : list A) : Completion (list B) :=
  match l with
  | [] => Normal []
  | x :: t =>
      bind (f x) (fun y => bind (mapM f t) (fun ys => Normal (y :: ys)))
  end.

(** ** Truthiness and [||] *)

Definition truthy (v : value) : bool :=
  match v with
  | VUndefined | VNull => false
  | VBool b => b
  | VNum n => negb (Z.eqb n 0)
  | VStr s => negb (String.eqb s "")
  | VArr _ | VObj _ => true
  end.

(** [a || b] *)
Definition or_else (a b : value) : value := if truthy a then a else b.

(** ** Property access *)

Fixpoint lookup {A} (k : string) (props : list (string * A)) : option A :=
  match props with
  | [] => None
  | (k', v) :: t => if String.eqb k k' then Some v else lookup k t
  end.

(** [v.k] for a key [k] written in the source.  None of the keys read by the
    sources is [length] or an index, so a string, an array, a number or a
    boolean has no such property.  Reading a property of [null] or
    [undefined] throws (the message is the one V8 gives). *)
Definition get (v : value) (k : string) : Completion value :=
  match v with
  | VUndefined =>
      Throw (mkExn TypeError ("Cannot read properties of undefined (reading '" ++ k ++ "')"))
  | VNull =>
      Throw (mkExn TypeError ("Cannot read properties of null (reading '" ++ k ++ "')"))
  | VObj props =>
      match lookup k props with
      | Some x => Normal x
      | None => Normal VUndefined
      end
  | _ => Normal VUndefined
  end.

(** ** Numbers and strings *)

Definition Number_toString (n : Z) : string :=
  NilZero.string_of_int (Z.to_int n).

(** [l.join(sep)] on an array whose elements are already strings. *)
Definition join (sep : string) (l : list string) : string := String.concat sep l.

(** The text of [String(v)] and of [`${v}`] for a value on which the
    conversion returns, see [converts] below.  An array prints its elements
    separated by commas, with nothing for [null] and [undefined]; an object
    prints as [[object Object]]. *)
Fixpoint ToString (v : value) : string :=
  match v with
  | VUndefined => "undefined"
  | VNull => "null"
  | VBool b => if b then "true" else "false"
  | VNum n => Number_toString n
  | VStr s => s
  | VArr l =>
      join ","
        ((fix elems (l : list value) : list string :=
            match l with
            | [] => []
            | x :: t =>
                match x with
                | VUndefined | VNull => ""
                | _ => ToString x
                end :: elems t
            end) l)
  | VObj _ => "[object Object]"
  end.

(** Whether the conversion of a value to a string returns.  An object is
    converted by the [toString] it holds or inherits, then by [valueOf]
    (OrdinaryToPrimitive).  An object parsed from JSON inherits both; when
    it has a property [toString] of its own, that property is not a
    function, the inherited [valueOf] returns the object itself, and the
    conversion throws a [TypeError].  An array is converted by joining its
    elements, each converted unless it is [null] or [undefined]. *)
Fixpoint converts (v : value) : bool :=
  match v with
  | VArr l =>
      (fix all (l : list value) : bool :=
         match l with
         | [] => true
         | x :: t => converts x && all t
         end) l
  | VObj props =>
      match lookup "toString" props with
      | Some _ => false
      | None => true
      end
  | _ => true
  end.

(** The text an element contributes to [Array.prototype.join]. *)
Definition join_element (x : value) : string :=
  match x with
  | VUndefined | VNull => ""
  | _ => ToString x
  end.

(** [a.join(sep)] on an array of values. *)
Definition Array_join (sep : string) (l : list value) : string :=
  join sep (map join_element l).

(** [s.replace] of the source: every double quote is doubled. *)
Fixpoint replace_quotes (s : string) : string :=
  match s with
  | EmptyString => EmptyString
  | String c s' =>
      if Ascii.eqb c DQUOTE
      then String DQUOTE (String DQUOTE (replace_quotes s'))
      else String c (replace_quotes s')
  end.

(** ** Own property keys: array indices first *)

(** The digits of a decimal numeral, most significant first. *)
Definition digit_of (c : ascii) : option N :=
  let n := N_of_ascii c in
  if (48 <=? n)%N && (n <=? 57)%N then Some (n - 48)%N else None.

Fixpoint parse_digits (acc : N) (s : string) : option N :=
  match s with
  | EmptyString => Some acc
  | String c s' =>
      match digit_of c with
      | Some d => parse_digits (10 * acc + d)%N s'
      | None => None
      end
  end.

(** A property key is an array index when it is the canonical numeral of an
    integer from 0 to 2^32 - 2. *)
Definition array_index (k : string) : option N :=
  match k with
  | EmptyString => None
  | _ =>
      match parse_digits 0 k with
      | Some n =>
          if String.eqb (Number_toString (Z.of_N n)) k && (n <? 4294967295)%N
          then Some n
          else None
      | None => None
      end
  end.

Definition is_array_index (k : string) : bool :=
  match array_index k with Some _ => true | None => false end.

(** Insertion of a property into a list sorted by ascending index. *)
Fixpoint insert_by_index {A} (n : N) (p : string * A) (l : list (N * (string * A)))
  : list (N * (string * A)) :=
  match l with
  | [] => [(n, p)]
  | (m, q) :: t =>
      if (n <? m)%N then (n, p) :: (m, q) :: t
      else (m, q) :: insert_by_index n p t
  end.

Fixpoint index_properties {A} (props : list (string * A)) : list (N * (string * A)) :=
  match props with
  | [] => []
  | (k, v) :: t =>
      match array_index k with
      | Some n => insert_by_index n (k, v) (index_properties t)
      | None => index_properties t
      end
  end.

Definition named_properties {A} (props : list (string * A)) : list (string * A) :=
  filter (fun p => negb (is_array_index (fst p))) props.

(** The order in which the own properties of an ordinary object are
    enumerated (OrdinaryOwnPropertyKeys): the array indices in ascending
    numeric order, then the other keys in the order of their creation. *)
Definition own_entries {A} (props : list (string * A)) : list (string * A) :=
  (map snd (index_properties props) ++ named_properties props)%list.

(** The entries of an array, or of the characters of a string. *)
Fixpoint indexed {A} (i : Z) (l : list A) : list (string * A) :=
  match l with
  | [] => []
  | x :: t => (Number_toString i, x) :: indexed (i + 1) t
  end.

Fixpoint characters (s : string) : list value :=
  match s with
  | EmptyString => []
  | String c s' => VStr (String c EmptyString) :: characters s'
  end.

(** [Object.entries(v)] for a value that is neither [null] nor [undefined]:
    the own properties of an object, the elements of an array, the
    characters of a text (one entry per byte, which is exact for ASCII),
    nothing for a number or a boolean. *)
Definition Object_entries (v : value) : list (string * value) :=
  match v with
  | VObj props => own_entries props
  | VArr l => indexed 0 l
  | VStr s => indexed 0 (characters s)
  | _ => []
  end.

(** ** [JSON.stringify] *)

Definition hex_digit (n : N) : ascii :=
  if (n <? 10)%N then ascii_of_N (48 + n) else ascii_of_N (87 + n).

(** The escape of one character inside a JSON string literal. *)
Definition json_escape (c : ascii) : string :=
  let n := N_of_ascii c in
  if Ascii.eqb c DQUOTE then String BACKSLASH (String DQUOTE "")
  else if Ascii.eqb c BACKSLASH then String BACKSLASH (String BACKSLASH "")
  else if (n =? 8)%N then String BACKSLASH "b"
  else if (n =? 9)%N then String BACKSLASH "t"
  else if (n =? 10)%N then String BACKSLASH "n"
  else if (n =? 12)%N then String BACKSLASH "f"
  else if (n =? 13)%N then String BACKSLASH "r"
  else if (n <? 32)%N then
    String BACKSLASH
      (String "u" (String "0" (String "0"
         (String (hex_digit (n / 16)) (String (hex_digit (n mod 16)) "")))))
  else String c "".

Fixpoint json_escape_all (s : string) : string :=
  match s with
  | EmptyString => EmptyString
  | String c s' => json_escape c ++ json_escape_all s'
  end.

(** QuoteJSONString: the literal of a string. *)
Definition QuoteJSONString (s : string) : string :=
  String DQUOTE (json_escape_all s ++ String DQUOTE "").

Definition json_member (m : string * string) : string :=
  QuoteJSONString (fst m) ++ ":" ++ snd m.

(** [JSON.stringify(v)] without replacer or indentation; [None] is the
    [undefined] that [JSON.stringify(undefined)] returns.  Inside an array
    [undefined] is written [null]; inside an object the member is left
    out. *)
Fixpoint JSON_stringify (v : value) : option string :=
  match v with
  | VUndefined => None
  | VNull => Some "null"
  | VBool b => Some (if b then "true" else "false")
  | VNum n => Some (Number_toString n)
  | VStr s => Some (QuoteJSONString s)
  | VArr l =>
      Some ("[" ++
            join ","
              ((fix elems (l : list value) : list string :=
                  match l with
                  | [] => []
                  | x :: t =>
                      match JSON_stringify x with
                      | Some s => s
                      | None => "null"
                      end :: elems t
                  end) l)
            ++ "]")
  | VObj props =>
      Some ("{" ++
            join ","
              (map json_member
                 (own_entries
                    ((fix members (ps : list (string * value)) : list (string * string) :=
                        match ps with
                        | [] => []
                        | (k, x) :: t =>
                            match JSON_stringify x with
                            | Some s => (k, s) :: members t
                            | None => members t
                            end
                        end) props)))
            ++ "}")
  end.

(** The value an expression [JSON.stringify(v)] evaluates to. *)
Definition JSON_stringify_value (v : value) : value :=
  match JSON_stringify v with
  | Some s => VStr s
  | None => VUndefined
  end.

End JS.
Import JS.
Local Open Scope js_scope.

(* ===================================================================== *)
(** * 2. ResultsTable.jsx: the CSV export                                 *)
(* ===================================================================== *)

(** [const headers = ...] *)
Definition headers : list string :=
  ["File Name"; "Score"; "Pass/Fail"; "Justification"; "Cited Evidence";
   "Competency Scores"].

(** [const details = result.evaluation_details || {}] *)
Definition details (result : value) : Completion value :=
  d <- get result "evaluation_details" ;;
  Normal (or_else d (VObj [])).

(** The arrow function of line 16: one entry rendered as [key: value]. *)
Definition render_entry (e : string * value) : string :=
  fst e ++ ": " ++ ToString (snd e).

(** [const competencyScores = details.competency_scores ? ... : ''] *)
Definition competencyScores (details : value) : Completion string :=
  cs <- get details "competency_scores" ;;
  if truthy cs
  then Normal (join "; " (map render_entry (Object_entries cs)))
  else Normal "".

(** [const citedEvidence = details.cited_evidence ? ... : ''].  Only an
    array has a [join] method: on any other truthy value the call throws. *)
Definition citedEvidence (details : value) : Completion string :=
  ce <- get details "cited_evidence" ;;
  if truthy ce then
    match ce with
    | VArr l => Normal (Array_join "; " l)
    | _ => Throw (mkExn TypeError "details.cited_evidence.join is not a function")
    end
  else Normal "".

(** The array literal of lines 19 to 26, before it is mapped. *)
Definition fields (result : value) : Completion (list value) :=
  details <- details result ;;
  competencyScores <- competencyScores details ;;
  citedEvidence <- citedEvidence details ;;
  file_name <- get result "file_name" ;;
  score <- get result "score" ;;
  pass_fail_status <- get details "pass_fail_status" ;;
  justification <- get details "justification" ;;
  Normal [ file_name;
           score;
           or_else pass_fail_status (VStr "N/A");
           JSON_stringify_value (or_else justification (VStr ""));
           JSON_stringify_value (VStr citedEvidence);
           JSON_stringify_value (VStr competencyScores) ].

(** The arrow function mapped over the fields: the text of the field between
    double quotes, each inner double quote doubled. *)
Definition quoteField (field : value) : string :=
  String DQUOTE (replace_quotes (ToString field) ++ String DQUOTE "").

(** The body of [results.map(result => ...)]: one row of the file. *)
Definition row (result : value) : Completion string :=
  fs <- fields result ;;
  Normal (join "," (map quoteField fs)).

(** [const rows = results.map(...)] *)
Definition rows (results : list value) : Completion (list string) :=
  mapM row results.

(** [headers.map(h => ...).join(',')] *)
Definition headerRow : string :=
  join "," (map (fun h => String DQUOTE (h ++ String DQUOTE "")) headers).

(** [const csvContent = [headerRow, ...rows].join('\n')] *)
Definition csvContent (results : list value) : Completion string :=
  rows <- rows results ;;
  Normal (join (String "010"%char "") (headerRow :: rows)).

(** The file handed to the browser: the blob, its type and the name of the
    link that is clicked. *)
Record download : Type := mkDownload {
  download_name : string;
  download_type : string;
  download_content : string
}.

Definition downloadCsv (results : list value) : Completion download :=
  csvContent <- csvContent results ;;
  Normal (mkDownload "candidate_evaluation_results.csv"
                     "text/csv;charset=utf-8;"
                     csvContent).

(** ** Reading a field back *)

(** The reader of one quoted CSV field: the text between the surrounding
    double quotes, each doubled double quote read as one.  [None] when the
    text is not a quoted field. *)
Fixpoint unquote_body (s : string) : option string :=
  match s with
  | EmptyString => None
  | String c s' =>
      if Ascii.eqb c DQUOTE then
        match s' with
        | EmptyString => Some EmptyString
        | String c' s'' =>
            if Ascii.eqb c' DQUOTE
            then option_map (String DQUOTE) (unquote_body s'')
            else None
        end
      else option_map (String c) (unquote_body s')
  end.

Definition csv_unquote (field : string) : option string :=
  match field with
  | String c s => if Ascii.eqb c DQUOTE then unquote_body s else None
  | EmptyString => None
  end.

(* ===================================================================== *)
(** * 3. Asynchronous code                                                *)
(* ===================================================================== *)

(** ** Requests and responses *)

Record File : Type := mkFile { file_filename : string; file_bytes : string }.

Inductive form_value : Type :=
| FText (s : string)
| FFile (f : File).

(** A [FormData]: its entries in the order they were appended. *)
Definition FormData : Type := list (string * form_value).

(** [formData.append(name, v)] for a value that is not a file: the value is
    stored as its string. *)
Definition append_value (fd : FormData) (name : string) (v : value) : FormData :=
  (fd ++ [(name, FText (ToString v))])%list.

(** [formData.append(name, file)] *)
Definition append_file (fd : FormData) (name : string) (f : File) : FormData :=
  (fd ++ [(name, FFile f)])%list.

Definition has_field (name : string) (fd : FormData) : bool :=
  match lookup name fd with Some _ => true | None => false end.

Record request : Type := mkRequest {
  url : string;
  method : string;
  body : option FormData
}.

(** A response: its status and what [response.json()] settles to (the
    parsed body, or the error of the parser when the body is not JSON). *)
Record response : Type := mkResponse {
  status : Z;
  json : Completion value
}.

(** [response.ok] *)
Definition ok (r : response) : bool := (200 <=? status r)%Z && (status r <=? 299)%Z.

(** ** Processes *)

(** What an asynchronous function of the sources does to the outside: it
    awaits a [fetch], writes to the console, calls a state setter of its
    component, shows an alert, navigates, or cancels the default action
    of the event it handles.  [U] is the type of the state updates of the
    component. *)
Inductive event (U : Type) : Type -> Type :=
| Fetch (req : request) : event U (Completion response)
| ConsoleError (label : string) (e : exn) : event U unit
| SetState (u : U) : event U unit
| Alert (msg : string) : event U unit
| Navigate (to : string) : event U unit
| PreventDefault : event U unit.
Arguments Fetch {U} req.
Arguments ConsoleError {U} label e.
Arguments SetState {U} u.
Arguments Alert {U} msg.
Arguments Navigate {U} to.
Arguments PreventDefault {U}.

(** An asynchronous function body: it returns, throws, or performs an event
    and goes on with the answer.  The functions of the sources have no
    loop, so the trees are finite. *)
Inductive Proc (U A : Type) : Type :=
| Ret (a : A)
| Raise (e : exn)
| Vis {X : Type} (ev : event U X) (k : X -> Proc U A).
Arguments Ret {U A} a.
Arguments Raise {U A} e.
Arguments Vis {U A X} ev k.

Fixpoint pbind {U A B} (p : Proc U A) (k : A -> Proc U B) : Proc U B :=
  match p with
  | Ret a => k a
  | Raise e => Raise e
  | Vis ev h => Vis ev (fun x => pbind (h x) k)
  end.

Declare Scope proc_scope.
Delimit Scope proc_scope with proc.
Notation "x <- c ;; k" := (pbind c (fun x => k))
  (at level 61, c at next level, right associativity) : proc_scope.
Notation "c ;; k" := (pbind c (fun _ => k))
  (at level 61, right associativity) : proc_scope.

(** [try { p } catch (err) { h err }] *)
Fixpoint try_catch {U A} (p : Proc U A) (h : exn -> Proc U A) : Proc U A :=
  match p with
  | Ret a => Ret a
  | Raise e => h e
  | Vis ev k => Vis ev (fun x => try_catch (k x) h)
  end.

(** [try { p } finally { f }]: [f] runs on both exits, and the completion
    of [p] is kept unless [f] itself throws. *)
Fixpoint finally {U A} (p : Proc U A) (f : Proc U unit) : Proc U A :=
  match p with
  | Ret a => pbind f (fun _ => Ret a)
  | Raise e => pbind f (fun _ => Raise e)
  | Vis ev k => Vis ev (fun x => finally (k x) f)
  end.

Definition trigger {U X} (ev : event U X) : Proc U X := Vis ev (fun x => Ret x).

(** A synchronous computation inside an asynchronous function. *)
Definition lift {U A} (c : Completion A) : Proc U A :=
  match c with
  | Normal a => Ret a
  | Throw e => Raise e
  end.

(** [await fetch(url, options)] *)
Definition fetch {U} (req : request) : Proc U response :=
  Vis (Fetch req) lift.

(** [await response.json()] *)
Definition response_json {U} (r : response) : Proc U value := lift (json r).

(** [new Error(v)] for a value that is not [undefined]: the message of the
    error is [String(v)], and the constructor throws when that conversion
    does. *)
Definition new_Error (v : value) : Completion exn :=
  if converts v
  then Normal (mkExn Error (ToString v))
  else Throw (mkExn TypeError "Cannot convert object to primitive value").

Section Sources.

(** [import.meta.env.PROD]: whether this is the production build. *)
Variable PROD : bool.

(* ===================================================================== *)
(** * 4. api.js                                                           *)
(* ===================================================================== *)

Local Open Scope proc_scope.

Definition BASE_URL : string := if PROD then "/" else "http://localhost:8000".

Definition GET (u : string) : request := mkRequest u "GET" None.
Definition POST (u : string) (fd : FormData) : request := mkRequest u "POST" (Some fd).

(** In each function the last statement of the [try] block is
    [return response.json()], without [await]: the promise is handed to the
    caller as it is, and when it rejects the [catch] block does not run. *)

Definition getRoles {U} : Proc U value :=
  response <-
    try_catch
      (response <- fetch (GET (BASE_URL ++ "/api/roles")) ;;
       if negb (ok response) then
         errorData <- response_json response ;;
         detail <- lift (get errorData "detail") ;;
         error <- lift (new_Error (or_else detail (VStr "Failed to fetch roles"))) ;;
         Raise error
       else Ret response)
      (fun error =>
         trigger (ConsoleError "Error in getRoles:" error) ;;
         Raise error) ;;
  response_json response.

Definition createRole_formData (title description oldRubric : value) : FormData :=
  let formData := [] in
  let formData := append_value formData "title" title in
  let formData := append_value formData "description" description in
  if truthy oldRubric
  then append_value formData "old_rubric" oldRubric
  else formData.

Definition createRole {U} (title description oldRubric : value) : Proc U value :=
  let formData := createRole_formData title description oldRubric in
  response <-
    try_catch
      (response <- fetch (POST (BASE_URL ++ "/api/roles") formData) ;;
       if negb (ok response) then
         errorData <- response_json response ;;
         detail <- lift (get errorData "detail") ;;
         error <- lift (new_Error (or_else detail (VStr "Failed to create role"))) ;;
         Raise error
       else Ret response)
      (fun error =>
         trigger (ConsoleError "Error in createRole:" error) ;;
         Raise error) ;;
  response_json response.

Definition getRoleDetails {U} (roleId : value) : Proc U value :=
  response <-
    try_catch
      (response <- fetch (GET (BASE_URL ++ "/api/roles/" ++ ToString roleId)) ;;
       if negb (ok response) then
         errorData <- response_json response ;;
         detail <- lift (get errorData "detail") ;;
         error <- lift (new_Error (or_else detail (VStr "Failed to fetch role details"))) ;;
         Raise error
       else Ret response)
      (fun error =>
         trigger (ConsoleError "Error in getRoleDetails:" error) ;;
         Raise error) ;;
  response_json response.

Definition getRoleResults {U} (roleId : value) : Proc U value :=
  response <-
    try_catch
      (response <-
         fetch (GET (BASE_URL ++ "/api/roles/" ++ ToString roleId ++ "/results")) ;;
       if negb (ok response) then
         errorData <- response_json response ;;
         detail <- lift (get errorData "detail") ;;
         error <- lift (new_Error (or_else detail (VStr "Failed to fetch role results"))) ;;
         Raise error
       else Ret response)
      (fun error =>
         trigger (ConsoleError "Error in getRoleResults:" error) ;;
         Raise error) ;;
  response_json response.

Definition uploadResume {U} (roleId : value) (file : File) : Proc U value :=
  let formData := append_file [] "resume_file" file in
  response <-
    try_catch
      (response <-
         fetch (POST (BASE_URL ++ "/api/roles/" ++ ToString roleId ++ "/upload-resume")
                     formData) ;;
       if negb (ok response) then
         errorData <- response_json response ;;
         detail <- lift (get errorData "detail") ;;
         error <- lift (new_Error (or_else detail (VStr "Failed to upload resume"))) ;;
         Raise error
       else Ret response)
      (fun error =>
         trigger (ConsoleError "Error in uploadResume:" error) ;;
         Raise error) ;;
  response_json response.

(* ===================================================================== *)
(** * 5. RoleCreationForm.jsx                                             *)
(* ===================================================================== *)

Definition oldRubricTemplate : string := "
Competency 1: Strategic Growth & Client Alignment (Weight: 25%)
4 (Exceeds):
 Proactively identifies and implements significant program growth, service expansion, and process improvements. Consistently leads impactful business reviews with insightful strategic recommendations. Builds exceptionally strong, trust-based client relationships at senior levels.

3 (Meets):
 Develops and executes strategic initiatives effectively. Builds and maintains solid client relationships with proactive communication. Leads business reviews capably, providing performance insights. Identifies opportunities for program growth.

2 (Approaches):
 Shows understanding but limited experience in independent development/execution. Client communication experience, but may lack proactive strategic relationship building. Participated in, not led, business reviews.

1 (Below):
 Limited/no experience in strategic initiatives, senior client relationships, or leading business reviews.

Competency 2: Ad Operations, Account Onboarding & Management (Weight: 20%)
4 (Exceeds):
 2+ yrs & deep expertise in Ad Ops, seamless onboarding, significantly improving activation/retention. Drives growth/upsell, develops highly scalable onboarding. Expert in digital ad platforms.

3 (Meets):
 2+ yrs in Ad Ops & Acc Mgt. Effective onboarding, tracks metrics, works with AMs for growth, refined onboarding processes. Proficient with digital ad platforms.

2 (Approaches):
 Some Ad Ops/Acc Mgt experience, may not meet 2+ yrs. Understands onboarding, limited optimization experience. Familiar with some platforms.

1 (Below):
 Minimal experience in Ad Ops, onboarding, or account mgt. Little/no platform experience.

Competency 3: Customer Success Management & Support Excellence (Weight: 20%)
4 (Exceeds):
 7+ yrs leading CS, exceeds CSAT via proactive strategies & innovative self-service. Expertly monitors lifecycle, resolves complex pain points. Drives cross-functional improvements. Deep expertise with CS platforms.

3 (Meets):
 7+ yrs in CS. Monitors metrics, identifies pain points. Oversees support effectively, maintains good CSAT. Contributes to self-service. Proficient with CS strategies/platforms.

2 (Approaches):
 Some CS/support experience, may not meet 7+ yrs/strategic depth. Understands CSAT/support ops, limited proactive strategy/self-service. Used CS platforms, not strategic implementation.

1 (Below):
 Little/no strategic CS experience or overseeing support.

Competency 4: Leadership & People Management (Weight: 20%)
4 (Exceeds):
 4+ yrs leading/inspiring large, cross-functional teams to high performance. Fosters strong culture (collaboration, innovation, accountability). Established comprehensive career dev paths, coaching, training with measurable growth.

3 (Meets):
 2+ yrs managing cross-functional teams. Fosters positive culture. Implements coaching/training. Ensures team alignment.

2 (Approaches):
 Team lead/supervisory experience, may not meet 2+ yrs/cross-functional. Understands mentorship/development, limited strategic application.

1 (Below):
 No significant team management experience.

Competency 5: Process Improvement, Automation & Reporting (Weight: 15%)
4 (Exceeds):
 Proven track record of significant automation & process improvements enhancing efficiency/scalability (onboarding, self-service). Expert in data/reporting tools for insights & workflow optimization. Ensures highly accurate, insightful real-time reporting.

3 (Meets):
 Experience developing scalable processes, optimizing support models. Ensures accurate reporting, works with data analysts. Drove some automation/efficiencies. Familiar with reporting/workflow tools.

2 (Approaches):
 Aware of process improvement/automation, limited hands-on experience. Basic reporting understanding, may lack complex tool experience.

1 (Below):
 Little/no experience in process improvement, automation, or scalable solutions.

Overall Requirements & Communication (Pass/Fail)
Pass:
 Meets 2+ yrs Ad Ops/Acc Mgt/CS/Client Ops AND 2+ yrs team mgt (cross-functional). Communication clear for senior stakeholders.

Fail:
 Does not meet experience minimums OR communication is a concern.
".

Record form_state : Type := mkForm {
  title : string;
  description : string;
  form_loading : bool;
  form_error : option string
}.

(** The initial values given to [useState]. *)
Definition form_initial : form_state := mkForm "" "" false None.

Inductive form_update : Type :=
| setTitle (s : string)
| setDescription (s : string)
| setFormLoading (b : bool)
| setFormError (e : option string).

Definition form_apply (u : form_update) (s : form_state) : form_state :=
  match u with
  | setTitle t => mkForm t (description s) (form_loading s) (form_error s)
  | setDescription d => mkForm (title s) d (form_loading s) (form_error s)
  | setFormLoading b => mkForm (title s) (description s) b (form_error s)
  | setFormError e => mkForm (title s) (description s) (form_loading s) e
  end.

(** [handleSubmit] as created by the render that saw the state [s]. *)
Definition handleSubmit (s : form_state) : Proc form_update unit :=
  trigger PreventDefault ;;
  trigger (SetState (setFormLoading true)) ;;
  trigger (SetState (setFormError None)) ;;
  finally
    (try_catch
       (_ <- createRole (VStr (title s)) (VStr (description s)) (VStr oldRubricTemplate) ;;
        trigger (Alert "Role created and rubric generated successfully!") ;;
        trigger (Navigate "/"))
       (fun err => trigger (SetState (setFormError (Some (message err))))))
    (trigger (SetState (setFormLoading false))).

(* ===================================================================== *)
(** * 6. RoleDetails.jsx                                                  *)
(* ===================================================================== *)

Record details_state : Type := mkDetails {
  role : value;
  results : value;
  loading : bool;
  error : option string;
  isUploading : bool
}.

(** The initial values given to [useState]. *)
Definition details_initial : details_state :=
  mkDetails VNull (VArr []) true None false.

Inductive details_update : Type :=
| setRole (v : value)
| setResults (v : value)
| setLoading (b : bool)
| setError (e : option string)
| setIsUploading (b : bool).

Definition details_apply (u : details_update) (s : details_state) : details_state :=
  match u with
  | setRole v => mkDetails v (results s) (loading s) (error s) (isUploading s)
  | setResults v => mkDetails (role s) v (loading s) (error s) (isUploading s)
  | setLoading b => mkDetails (role s) (results s) b (error s) (isUploading s)
  | setError e => mkDetails (role s) (results s) (loading s) e (isUploading s)
  | setIsUploading b => mkDetails (role s) (results s) (loading s) (error s) b
  end.

(** [fetchData], for the role identifier [id] of the URL. *)
Definition fetchData (id : value) : Proc details_update unit :=
  trigger (SetState (setLoading true)) ;;
  trigger (SetState (setError None)) ;;
  finally
    (try_catch
       (roleData <- getRoleDetails id ;;
        trigger (SetState (setRole roleData)) ;;
        resultsData <- getRoleResults id ;;
        trigger (SetState (setResults resultsData)))
       (fun err => trigger (SetState (setError (Some (message err))))))
    (trigger (SetState (setLoading false))).

Definition handleResumeUpload (id : value) (file : File) : Proc details_update unit :=
  trigger (SetState (setIsUploading true)) ;;
  trigger (SetState (setError None)) ;;
  finally
    (try_catch
       (_ <- uploadResume id file ;;
        trigger (Alert "Resume uploaded and screened successfully!") ;;
        fetchData id)
       (fun err => trigger (SetState (setError (Some (message err))))))
    (trigger (SetState (setIsUploading false))).

End Sources.

(* ===================================================================== *)
(** * 7. Running a handler of a mounted component                         *)
(* ===================================================================== *)

(** What the environment decides: the outcome of the [n]-th [fetch] of the
    run ([Throw] when the promise rejects), and whether the user navigates
    away, unmounting the component, while that request is in flight. *)
Record env : Type := mkEnv {
  network : nat -> request -> Completion response;
  leaves : nat -> bool
}.

(** The state of the page around one component with state [S]: the state
    held by its [useState] cells, whether it is still mounted, and what
    the handler has done so far.  [applied] lists the state updates that
    took effect, each with the number of requests issued before it. *)
Record world (S U : Type) : Type := mkWorld {
  view : S;
  mounted : bool;
  fetches : nat;
  sent : list request;
  console : list (string * exn);
  alerts : list string;
  navigations : list string;
  prevented : nat;
  applied : list (nat * U)
}.
Arguments mkWorld {S U}.
Arguments view {S U}.
Arguments mounted {S U}.
Arguments fetches {S U}.
Arguments sent {S U}.
Arguments console {S U}.
Arguments alerts {S U}.
Arguments navigations {S U}.
Arguments prevented {S U}.
Arguments applied {S U}.

Section Runtime.

Context {S U : Type}.

(** How an update changes the state of the component. *)
Variable apply : U -> S -> S.
Variable E : env.

(** A state setter called on a mounted component updates its state; called
    after the component was unmounted it does nothing (React 18, the
    version whose [createRoot] is called in [main.jsx]). *)
Definition dispatch (u : U) (w : world S U) : world S U :=
  if mounted w then
    mkWorld (apply u (view w)) (mounted w) (fetches w) (sent w) (console w)
            (alerts w) (navigations w) (prevented w)
            (applied w ++ [(fetches w, u)])
  else w.

(** The request goes out; the component may be unmounted while it is in
    flight; then the outcome arrives. *)
Definition issue (req : request) (w : world S U) : world S U :=
  mkWorld (view w) (mounted w && negb (leaves E (fetches w))) (Datatypes.S (fetches w))
          (sent w ++ [req]) (console w) (alerts w) (navigations w) (prevented w)
          (applied w).

(** What each event does to the page.  [navigate(to)] makes the router
    show the route [to]: the one call of the sources is the navigation to
    the list in [RoleCreationForm], whose own route is [/create-role]
    ([App.jsx]), so the next render no longer holds the component that
    navigated and the state updates its handler makes after the call are
    never rendered.  The component counts as unmounted from the call on. *)
Definition handle {X} (ev : event U X) (w : world S U) : world S U * X :=
  match ev in event _ X return world S U * X with
  | Fetch req => (issue req w, network E (fetches w) req)
  | ConsoleError label e =>
      (mkWorld (view w) (mounted w) (fetches w) (sent w) (console w ++ [(label, e)])
               (alerts w) (navigations w) (prevented w) (applied w), tt)
  | SetState u => (dispatch u w, tt)
  | Alert msg =>
      (mkWorld (view w) (mounted w) (fetches w) (sent w) (console w)
               (alerts w ++ [msg]) (navigations w) (prevented w) (applied w), tt)
  | Navigate to =>
      (mkWorld (view w) false (fetches w) (sent w) (console w)
               (alerts w) (navigations w ++ [to]) (prevented w) (applied w), tt)
  | PreventDefault =>
      (mkWorld (view w) (mounted w) (fetches w) (sent w) (console w)
               (alerts w) (navigations w) (Datatypes.S (prevented w)) (applied w), tt)
  end.

(** The run of a handler to its end: the page afterwards and how the
    promise of the handler settles. *)
Fixpoint run {A} (p : Proc U A) (w : world S U) : world S U * Completion A :=
  match p with
  | Ret a => (w, Normal a)
  | Raise e => (w, Throw e)
  | Vis ev k => let (w', x) := handle ev w in run (k x) w'
  end.

End Runtime.

(** A freshly mounted component with state [s]. *)
Definition mount {S U} (s : S) : world S U :=
  mkWorld s true 0 [] [] [] [] 0 [].

(* ===================================================================== *)
(** * 8. Vocabulary of the statements                                     *)
(* ===================================================================== *)

(** ** Reading the file back *)

Definition newline : string := String "010"%char "".

(** The [i]-th quoted field of the row of a result (counted from 0). *)
Definition exported_field (i : nat) (result : value) : Completion string :=
  fs <- fields result ;;
  Normal (nth i (map quoteField fs) "").

(** The text a CSV reader finds in that field. *)
Definition read_back (i : nat) (result : value) : Completion (option string) :=
  f <- exported_field i result ;;
  Normal (csv_unquote f).

Definition push_char (c : ascii) (r : option (list string)) : option (list string) :=
  match r with
  | Some (f :: fs) => Some (String c f :: fs)
  | _ => None
  end.

(** The reader of a row of quoted fields separated by commas, started
    after the opening double quote of a field: the texts of the fields. *)
Fixpoint read_fields (s : string) : option (list string) :=
  match s with
  | EmptyString => None
  | String c s1 =>
      if Ascii.eqb c DQUOTE then
        match s1 with
        | EmptyString => Some [EmptyString]
        | String c1 s2 =>
            if Ascii.eqb c1 DQUOTE then push_char DQUOTE (read_fields s2)
            else if Ascii.eqb c1 ","%char then
              match s2 with
              | String c2 s3 =>
                  if Ascii.eqb c2 DQUOTE
                  then option_map (cons EmptyString) (read_fields s3)
                  else None
              | EmptyString => None
              end
            else None
        end
      else push_char c (read_fields s1)
  end.

Definition read_row (line : string) : option (list string) :=
  match line with
  | String c s => if Ascii.eqb c DQUOTE then read_fields s else None
  | EmptyString => None
  end.

(** The reader of a JSON string literal ([JSON.parse] on the literal of a
    string): the text between the double quotes with its escapes undone.
    An escape [\uXXXX] is read when it names a character below 128, which
    are the only ones [JSON.stringify] writes in this model. *)
Definition hex_value (c : ascii) : option N :=
  let n := N_of_ascii c in
  if (48 <=? n)%N && (n <=? 57)%N then Some (n - 48)%N
  else if (97 <=? n)%N && (n <=? 102)%N then Some (n - 87)%N
  else if (65 <=? n)%N && (n <=? 70)%N then Some (n - 55)%N
  else None.

Definition hex4 (a b c d : ascii) : option N :=
  match hex_value a, hex_value b, hex_value c, hex_value d with
  | Some x, Some y, Some z, Some t => Some (((x * 16 + y) * 16 + z) * 16 + t)%N
  | _, _, _, _ => None
  end.

Fixpoint json_unescape (s : string) : option string :=
  match s with
  | EmptyString => None
  | String c s1 =>
      if Ascii.eqb c DQUOTE then
        match s1 with
        | EmptyString => Some EmptyString
        | _ => None
        end
      else if Ascii.eqb c BACKSLASH then
        match s1 with
        | EmptyString => None
        | String e s2 =>
            if Ascii.eqb e DQUOTE then option_map (String DQUOTE) (json_unescape s2)
            else if Ascii.eqb e BACKSLASH then option_map (String BACKSLASH) (json_unescape s2)
            else if Ascii.eqb e "/"%char then option_map (String "/"%char) (json_unescape s2)
            else if Ascii.eqb e "b"%char then option_map (String "008"%char) (json_unescape s2)
            else if Ascii.eqb e "t"%char then option_map (String "009"%char) (json_unescape s2)
            else if Ascii.eqb e "n"%char then option_map (String "010"%char) (json_unescape s2)
            else if Ascii.eqb e "f"%char then option_map (String "012"%char) (json_unescape s2)
            else if Ascii.eqb e "r"%char then option_map (String "013"%char) (json_unescape s2)
            else if Ascii.eqb e "u"%char then
              match s2 with
              | String h1 (String h2 (String h3 (String h4 s6))) =>
                  match hex4 h1 h2 h3 h4 with
                  | Some n =>
                      if (n <? 128)%N
                      then option_map (String (ascii_of_N n)) (json_unescape s6)
                      else None
                  | None => None
                  end
              | _ => None
              end
            else None
        end
      else if (N_of_ascii c <? 32)%N then None
      else option_map (String c) (json_unescape s1)
  end.

Definition JSON_parse_string (literal : string) : option string :=
  match literal with
  | String c s => if Ascii.eqb c DQUOTE then json_unescape s else None
  | EmptyString => None
  end.

(** ** The results on which a row is produced *)

(** [row] throws on a result that is [null] or [undefined], and on a
    truthy [cited_evidence] that is not an array; [Result_shape] excludes
    the two. *)
Definition evidence_joinable (ce : value) : bool :=
  match ce with
  | VArr _ => true
  | _ => negb (truthy ce)
  end.

Definition Result_shape (result : value) : Prop :=
  exists d ce,
    details result = Normal d /\
    get d "cited_evidence" = Normal ce /\
    evidence_joinable ce = true.

(** The values that the export of a result converts to a string: the
    value of each entry of a truthy [competency_scores] (line 16), the
    elements of a truthy [cited_evidence], joined as the array is (line 17),
    and the file name, the score and the status or its default (line 26).
    What [JSON.stringify] returns is a string already. *)
Definition converted (result : value) : Completion (list value) :=
  details <- details result ;;
  competency_scores <- get details "competency_scores" ;;
  cited_evidence <- get details "cited_evidence" ;;
  file_name <- get result "file_name" ;;
  score <- get result "score" ;;
  pass_fail_status <- get details "pass_fail_status" ;;
  Normal ((if truthy competency_scores
           then map snd (Object_entries competency_scores)
           else []) ++
          (if truthy cited_evidence then [cited_evidence] else []) ++
          [ file_name; score; or_else pass_fail_status (VStr "N/A") ])%list.

(** A result of the right shape each of whose converted values converts:
    no object with a [toString] of its own stands where a text is made. *)
Definition exportable (result : value) : Prop :=
  Result_shape result /\
  exists vs, converted result = Normal vs /\ forallb converts vs = true.

(** ** Example results *)

(** The result of the end-to-end example of the specification. *)
Definition alice_details : value :=
  VObj [ ("pass_fail_status", VStr "Pass");
         ("justification", VStr "Strong, clear communicator");
         ("cited_evidence", VArr [VStr "5 yrs mgmt"]);
         ("competency_scores", VObj [("Leadership", VNum 4)]) ].

Definition alice : value :=
  VObj [ ("file_name", VStr "alice.pdf");
         ("score", VNum 82);
         ("evaluation_details", alice_details) ].

(** A result without evaluation details. *)
Definition bob : value :=
  VObj [ ("file_name", VStr "bob.pdf"); ("score", VNum 64) ].

(** A result whose justification holds a comma. *)
Definition carol_details : value :=
  VObj [ ("pass_fail_status", VStr "Pass");
         ("justification", VStr "Clear, concise") ].

Definition carol : value :=
  VObj [ ("file_name", VStr "carol.pdf");
         ("score", VNum 71);
         ("evaluation_details", carol_details) ].

(** A result whose competencies are named by numbers, the larger first. *)
Definition dave : value :=
  VObj [ ("file_name", VStr "dave.pdf");
         ("score", VNum 55);
         ("evaluation_details",
          VObj [ ("competency_scores",
                  VObj [ ("2", VNum 3); ("1", VNum 4) ]) ]) ].

(** A result with three named competencies, not in alphabetical order. *)
Definition erin_scores : list (string * value) :=
  [ ("Leadership", VNum 4); ("Ad Operations", VNum 2); ("Customer Success", VNum 3) ].

Definition erin_details : value :=
  VObj [ ("pass_fail_status", VStr "Fail");
         ("competency_scores", VObj erin_scores) ].

Definition erin : value :=
  VObj [ ("file_name", VStr "erin.docx");
         ("score", VNum 48);
         ("evaluation_details", erin_details) ].

(** A result without file name, with a [null] score, a number where the
    justification should be and a text where the competency scores should
    be. *)
Definition frank_details : value :=
  VObj [ ("justification", VNum 5); ("competency_scores", VStr "n/a") ].

Definition frank : value :=
  VObj [ ("score", VNull); ("evaluation_details", frank_details) ].

(** A result whose cited evidence is a text, not an array of texts. *)
Definition gina : value :=
  VObj [ ("file_name", VStr "gina.pdf");
         ("evaluation_details", VObj [("cited_evidence", VStr "see resume")]) ].

(** ** The five functions of api.js as one *)

Inductive operation : Type :=
| GetRoles
| CreateRole (title description oldRubric : value)
| GetRoleDetails (roleId : value)
| GetRoleResults (roleId : value)
| UploadResume (roleId : value) (file : File).

Definition perform (PROD : bool) {U} (op : operation) : Proc U value :=
  match op with
  | GetRoles => getRoles PROD
  | CreateRole t d o => createRole PROD t d o
  | GetRoleDetails i => getRoleDetails PROD i
  | GetRoleResults i => getRoleResults PROD i
  | UploadResume i f => uploadResume PROD i f
  end.

(** The message each function falls back to. *)
Definition default_message (op : operation) : string :=
  match op with
  | GetRoles => "Failed to fetch roles"
  | CreateRole _ _ _ => "Failed to create role"
  | GetRoleDetails _ => "Failed to fetch role details"
  | GetRoleResults _ => "Failed to fetch role results"
  | UploadResume _ _ => "Failed to upload resume"
  end.

(** The label each function passes to [console.error]. *)
Definition console_label (op : operation) : string :=
  match op with
  | GetRoles => "Error in getRoles:"
  | CreateRole _ _ _ => "Error in createRole:"
  | GetRoleDetails _ => "Error in getRoleDetails:"
  | GetRoleResults _ => "Error in getRoleResults:"
  | UploadResume _ _ => "Error in uploadResume:"
  end.

(** The request each function sends. *)
Definition request_of (PROD : bool) (op : operation) : request :=
  match op with
  | GetRoles => GET (BASE_URL PROD ++ "/api/roles")
  | CreateRole t d o => POST (BASE_URL PROD ++ "/api/roles") (createRole_formData t d o)
  | GetRoleDetails i => GET (BASE_URL PROD ++ "/api/roles/" ++ ToString i)
  | GetRoleResults i => GET (BASE_URL PROD ++ "/api/roles/" ++ ToString i ++ "/results")
  | UploadResume i f =>
      POST (BASE_URL PROD ++ "/api/roles/" ++ ToString i ++ "/upload-resume")
           (append_file [] "resume_file" f)
  end.

(** The body that the five functions share, for the label of the console
    message, the default message and the request. *)
Definition api_call {U} (label default : string) (req : request) : Proc U value :=
  (response <-
     try_catch
       (response <- fetch req ;;
        if negb (ok response) then
          errorData <- response_json response ;;
          detail <- lift (get errorData "detail") ;;
          error <- lift (new_Error (or_else detail (VStr default))) ;;
          Raise error
        else Ret response)
       (fun error =>
          trigger (ConsoleError label error) ;;
          Raise error) ;;
   response_json response)%proc.

(** What the [try] block of an operation yields for an outcome of its
    request: the response to parse, or the error that the [catch] block
    logs and throws again. *)
Definition tried (default : string) (o : Completion response) : Completion response :=
  r <- o ;;
  if negb (ok r) then
    errorData <- json r ;;
    detail <- get errorData "detail" ;;
    error <- new_Error (or_else detail (VStr default)) ;;
    Throw error
  else Normal r.

(** How the promise of an operation settles for an outcome of its request. *)
Definition settled (default : string) (o : Completion response) : Completion value :=
  r <- tried default o ;;
  json r.

(** The page after the [catch] block has logged the error of the [try]
    block, if there was one. *)
Definition log_error {S U} (label : string) (c : Completion response) (w : world S U)
  : world S U :=
  match c with
  | Normal _ => w
  | Throw e =>
      mkWorld (view w) (mounted w) (fetches w) (sent w) (console w ++ [(label, e)])
              (alerts w) (navigations w) (prevented w) (applied w)
  end.

(** [err.message] of what a computation threw. *)
Definition thrown_message {A} (c : Completion A) : option string :=
  match c with
  | Throw e => Some (message e)
  | Normal _ => None
  end.

(** ** Example servers and users *)

(** A server that answers every request with status 500 and a body that is
    not JSON, so that [response.json()] rejects with the error of the
    parser. *)
Definition not_json : response :=
  mkResponse 500 (Throw (mkExn SyntaxError "Unexpected token I in JSON at position 0")).

Definition broken_server : env := mkEnv (fun _ _ => Normal not_json) (fun _ => false).

(** A server that refuses every request with status 400 and the body of
    the example of the specification. *)
Definition title_required : response :=
  mkResponse 400 (Normal (VObj [("detail", VStr "title required")])).

Definition refusing_server : env := mkEnv (fun _ _ => Normal title_required) (fun _ => false).

(** A server that answers every request with status 200 and a role; a
    user who leaves the page while the first request is in flight, and one
    who stays. *)
Definition role_seven : value :=
  VObj [ ("id", VNum 7); ("title", VStr "Engineer") ].

Definition leaving_user : env :=
  mkEnv (fun _ _ => Normal (mkResponse 200 (Normal role_seven))) (fun n => Nat.eqb n 0).

Definition staying_user : env :=
  mkEnv (fun _ _ => Normal (mkResponse 200 (Normal role_seven))) (fun _ => false).

(** The creation form with a description typed in and no title, and the
    detail view, each just after it was mounted. *)
Definition form_mounted : world form_state form_update :=
  mount (mkForm "" "Sells things" false None).

Definition details_mounted : world details_state details_update :=
  mount details_initial.

(** ** The log of applied updates *)

(** The state reached from [s] by the updates of a log, oldest first. *)
Definition replay {S U} (apply : U -> S -> S) (log : list (nat * U)) (s : S) : S :=
  fold_left (fun s e => apply (snd e) s) log s.

(** The step of an event that leaves the state, the log and the number of
    requests as they are. *)
Ltac unchanged_step IH :=
  match goal with
  | |- context [run _ _ (_ tt) ?w1] =>
      let new := fresh "new" in
      destruct (IH tt w1) as (new & ? & ? & ? & ?);
      exists new; repeat split; assumption
  end.

(* ===================================================================== *)
(** * 9. The other functions of the sources                               *)
(* ===================================================================== *)

(** ** ResultsTable.jsx: the details button of a row *)

(** [v?.k] *)
Definition get_optional (v : value) (k : string) : Completion value :=
  match v with
  | VUndefined | VNull => Normal VUndefined
  | _ => get v k
  end.

(** [result.evaluation_details?.k] *)
Definition detail (result : value) (k : string) : Completion value :=
  d <- get result "evaluation_details" ;;
  get_optional d k.

(** The arrow function of line 69: one entry on a line of its own. *)
Definition render_line (e : string * value) : string :=
  "  " ++ fst e ++ ": " ++ ToString (snd e).

(** The text built by the click handler of lines 63 to 78.  The branch of
    each conditional reads again the property that its condition has just
    read; it is read once here. *)
Definition detailsText (result : value) : Completion string :=
  justification <- detail result "justification" ;;
  competency_scores <- detail result "competency_scores" ;;
  let competency :=
    if truthy competency_scores
    then join newline (map render_line (Object_entries competency_scores))
    else "N/A" in
  cited_evidence <- detail result "cited_evidence" ;;
  evidence <-
    (if truthy cited_evidence then
       match cited_evidence with
       | VArr l => Normal (Array_join (newline ++ "- ") l)
       | _ =>
           Throw (mkExn TypeError
                    "result.evaluation_details.cited_evidence.join is not a function")
       end
     else Normal "N/A") ;;
  Normal ("Justification:" ++ newline ++
          ToString (or_else justification (VStr "N/A")) ++ newline ++ newline ++
          "Competency Scores:" ++ newline ++ competency ++ newline ++ newline ++
          "Cited Evidence:" ++ newline ++ evidence).

(** The click handler: the text is shown in an alert. *)
Definition viewDetails {U} (result : value) : Proc U unit :=
  (text <- lift (detailsText result) ;;
   trigger (Alert text))%proc.

(** ** ResultsTable.jsx: what the component returns *)

(** What a row of the table reads from its result, in the order of the
    text: [result.id] for the key, [result.file_name], [result.score], the
    status or [N/A]; [row_details] is the text that a click on the button
    of the row builds. *)
Record table_row : Type := mkRow {
  row_key : value;
  row_file_name : value;
  row_score : value;
  row_status : value;
  row_details : Completion string
}.

(** The arrow function of lines 54 to 85. *)
Definition result_row (result : value) : Completion table_row :=
  id <- get result "id" ;;
  file_name <- get result "file_name" ;;
  score <- get result "score" ;;
  pass_fail_status <- detail result "pass_fail_status" ;;
  Normal (mkRow id file_name score (or_else pass_fail_status (VStr "N/A"))
                (detailsText result)).

(** What [ResultsTable] returns: the message when there is nothing to show,
    otherwise the table with what its download button computes and its
    rows. *)
Inductive rendered : Type :=
| NoDataMessage
| Table (onDownload : Completion download) (body : list table_row).

(** [if (!results || results.length === 0) return ...; ... results.map(...)]
    for the [results] the component is given: only an array has a [map]
    that can be called; a text has a length and no [map]; an object has
    the length it holds under that key, if any; a number or a boolean has
    neither. *)
Definition ResultsTable (results : value) : Completion rendered :=
  if negb (truthy results) then Normal NoDataMessage
  else
    match results with
    | VArr [] => Normal NoDataMessage
    | VArr l => body <- mapM result_row l ;; Normal (Table (downloadCsv l) body)
    | VObj props =>
        match lookup "length" props with
        | Some (VNum 0) => Normal NoDataMessage
        | _ => Throw (mkExn TypeError "results.map is not a function")
        end
    | _ => Throw (mkExn TypeError "results.map is not a function")
    end.

(** ** Calls that are not awaited *)

(** The call of an asynchronous function whose promise is dropped: what the
    function does happens, and its rejection does not reach the caller.
    Each such call of the sources is the last statement of its caller. *)
Definition call_async {U A} (p : Proc U A) : Proc U unit :=
  try_catch (pbind p (fun _ => Ret tt)) (fun _ => Ret tt).

(** ** ResumeUploader.jsx *)

Module ResumeUploader.

(** [handleSubmit] as created by the render that saw the selected [file]
    ([None] when no file is selected) and the [onUpload] of the parent. *)
Definition handleSubmit {U} (file : option File) (onUpload : File -> Proc U unit)
  : Proc U unit :=
  (trigger PreventDefault ;;
   match file with
   | Some f => call_async (onUpload f)
   | None => Ret tt
   end)%proc.

(** The [disabled] attribute of the submit button. *)
Definition button_disabled (isUploading : bool) (file : option File) : bool :=
  isUploading || match file with Some _ => false | None => true end.

End ResumeUploader.

(** ** RoleDetails.jsx: the effect and what is rendered *)

(** [useEffect(() => { fetchData(); }, [id])] *)
Definition RoleDetails_effect (PROD : bool) (id : value) : Proc details_update unit :=
  call_async (fetchData PROD id).

(** The truthiness of an error state, which is [null] or a message. *)
Definition shown (error : option string) : option string :=
  match error with
  | Some m => if String.eqb m "" then None else Some m
  | None => None
  end.

(** The four returns of the component.  The last holds the role, the flag
    given to [ResumeUploader], and what [ResultsTable] returns for the
    results it is given. *)
Inductive details_page : Type :=
| LoadingRole
| DetailsError (msg : string)
| RoleNotFound
| RolePage (role : value) (isUploading : bool) (table : rendered).

(** The render of the page: [RoleDetails], and inside its last return
    [ResultsTable], whose failure is the failure of the render. *)
Definition RoleDetails_render (s : details_state) : Completion details_page :=
  if loading s then Normal LoadingRole
  else match shown (error s) with
       | Some m => Normal (DetailsError m)
       | None =>
           if negb (truthy (role s)) then Normal RoleNotFound
           else
             table <- ResultsTable (results s) ;;
             Normal (RolePage (role s) (isUploading s) table)
       end.

(** ** RoleList.jsx *)

Record list_state : Type := mkList {
  roles : value;
  list_loading : bool;
  list_error : option string
}.

(** The initial values given to [useState]. *)
Definition list_initial : list_state := mkList (VArr []) true None.

Inductive list_update : Type :=
| setRoles (v : value)
| setListLoading (b : bool)
| setListError (e : option string).

Definition list_apply (u : list_update) (s : list_state) : list_state :=
  match u with
  | setRoles v => mkList v (list_loading s) (list_error s)
  | setListLoading b => mkList (roles s) b (list_error s)
  | setListError e => mkList (roles s) (list_loading s) e
  end.

(** [fetchRoles], the function defined and called by the effect. *)
Definition fetchRoles (PROD : bool) : Proc list_update unit :=
  finally
    (try_catch
       (data <- getRoles PROD ;;
        trigger (SetState (setRoles data)))%proc
       (fun err => trigger (SetState (setListError (Some (message err))))))
    (trigger (SetState (setListLoading false))).

(** [useEffect(() => { ...; fetchRoles(); }, [])] *)
Definition RoleList_effect (PROD : bool) : Proc list_update unit :=
  call_async (fetchRoles PROD).

(** What a card of the grid reads from its role: [role.id] for the key and
    the link, [role.title], [role.created_at].  The formatting of the date
    is left out. *)
Record card : Type := mkCard { card_id : value; card_title : value; card_created : value }.

Definition role_card (role : value) : Completion card :=
  id <- get role "id" ;;
  title <- get role "title" ;;
  created_at <- get role "created_at" ;;
  Normal (mkCard id title created_at).

Inductive list_page : Type :=
| LoadingRoles
| ListError (msg : string)
| NoRoles
| RoleCards (cards : list card).

(** [roles.length === 0 ? ... : roles.map(...)]: an array is mapped; a text
    has a length and no [map]; an object has the length it holds under that
    key, if any, and no [map] that can be called; a number or a boolean has
    neither; [null] has no property at all. *)
Definition role_grid (roles : value) : Completion list_page :=
  match roles with
  | VArr [] => Normal NoRoles
  | VArr l => cards <- mapM role_card l ;; Normal (RoleCards cards)
  | VStr s =>
      if String.eqb s "" then Normal NoRoles
      else Throw (mkExn TypeError "roles.map is not a function")
  | VObj props =>
      match lookup "length" props with
      | Some (VNum 0) => Normal NoRoles
      | _ => Throw (mkExn TypeError "roles.map is not a function")
      end
  | VNull => Throw (mkExn TypeError "Cannot read properties of null (reading 'length')")
  | VUndefined =>
      Throw (mkExn TypeError "Cannot read properties of undefined (reading 'length')")
  | _ => Throw (mkExn TypeError "roles.map is not a function")
  end.

Definition RoleList_render (s : list_state) : Completion list_page :=
  if list_loading s then Normal LoadingRoles
  else match shown (list_error s) with
       | Some m => Normal (ListError m)
       | None => role_grid (roles s)
       end.

(** ** Vocabulary of the further statements *)

(** How the promise of an operation settles when its request is the [n]-th
    of the run. *)
Definition outcome (E : env) (PROD : bool) (n : nat) (op : operation) : Completion value :=
  settled (default_message op) (network E n (request_of PROD op)).

(** What the [catch] block of an operation writes to the console. *)
Definition logged (label : string) (c : Completion response) : list (string * exn) :=
  match c with
  | Normal _ => []
  | Throw e => [(label, e)]
  end.


(** Induction on values, with the elements of an array and the properties
    of an object as smaller values. *)
Section ValueInduction.

Variable P : value -> Prop.
Hypothesis Hundefined : P VUndefined.
Hypothesis Hnull : P VNull.
Hypothesis Hbool : forall b, P (VBool b).
Hypothesis Hnum : forall n, P (VNum n).
Hypothesis Hstr : forall s, P (VStr s).
Hypothesis Harr : forall l, Forall P l -> P (VArr l).
Hypothesis Hobj : forall props, Forall (fun p => P (snd p)) props -> P (VObj props).


End ValueInduction.

(** Example data of the further statements. *)
Definition resume : File := mkFile "resume.pdf" "%PDF-1.7".

Definition screened : value :=
  VArr [ alice; erin ].

(** A server that answers the request for a role with the role and the
    request for its results with two results, and every other request
    with status 500 and a detail. *)
Definition suffix_results (u : string) : bool :=
  match index 0 "/results" u with Some _ => true | None => false end.

Definition busy : response :=
  mkResponse 500 (Normal (VObj [("detail", VStr "AI service unavailable")])).

Definition details_server : env :=
  mkEnv (fun _ req =>
           if String.eqb (method req) "GET"
           then Normal (mkResponse 200
                          (Normal (if suffix_results (url req) then screened else role_seven)))
           else Normal busy)
        (fun _ => false).

(** A server on which the role is found and its results cannot be read. *)
Definition half_server : env :=
  mkEnv (fun n _ =>
           match n with
           | 0 => Normal (mkResponse 200 (Normal role_seven))
           | _ => Normal busy
           end)
        (fun _ => false).

(** A server that accepts every upload and answers every read as
    [details_server] does. *)
Definition screening_server : env :=
  mkEnv (fun _ req =>
           if String.eqb (method req) "GET"
           then Normal (mkResponse 200
                          (Normal (if suffix_results (url req) then screened else role_seven)))
           else Normal (mkResponse 200 (Normal alice)))
        (fun _ => false).

(** A network that is down: every [fetch] rejects. *)
Definition offline : env :=
  mkEnv (fun _ _ => Throw (mkExn TypeError "Failed to fetch")) (fun _ => false).

(** A server that answers 200 with a body that is not JSON. *)
Definition html_server : env :=
  mkEnv (fun _ _ =>
           Normal (mkResponse 200
                     (Throw (mkExn SyntaxError "Unexpected token < in JSON at position 0"))))
        (fun _ => false).

(** A result whose file name holds double quotes, a comma and a line
    break, and whose justification holds a line break. *)
Definition heidi_details : value :=
  VObj [ ("pass_fail_status", VStr (dq "'Pass', provisionally"));
         ("justification", VStr ("Strong profile." ++ newline ++ "Check references.")) ].

Definition heidi : value :=
  VObj [ ("file_name", VStr (dq "Heidi 'H', CV" ++ newline ++ "(2).pdf"));
         ("score", VNum 90);
         ("evaluation_details", heidi_details) ].



(** The page after a state update on a mounted component, and after the
    other events. *)
Ltac page :=
  unfold dispatch;
  cbn [mounted fetches view sent console alerts navigations prevented applied
       andb negb fst snd].

(** The list view just after it was mounted. *)
Definition list_mounted : world list_state list_update := mount list_initial.

(* ===================================================================== *)
(** * 10. Properties of the CSV export                                    *)
(* ===================================================================== *)

(** ** Quoting and reading back *)

Lemma unquote_body_replace_quotes (s : string) :
  unquote_body (replace_quotes s ++ String DQUOTE "") = Some s.
Proof.
  induction s as [|c s IH]; simpl.
  - reflexivity.
  - destruct (Ascii.eqb c DQUOTE) eqn:Hc; simpl.
    + apply Ascii.eqb_eq in Hc; subst c.
      rewrite IH. reflexivity.
    + rewrite Hc, IH. reflexivity.
Qed.

(** A quoted field reads back as the text that was quoted. *)
Lemma csv_unquote_quoteField (v : value) :
  csv_unquote (quoteField v) = Some (ToString v).
Proof.
  unfold csv_unquote, quoteField. simpl.
  apply unquote_body_replace_quotes.
Qed.

Lemma append_assoc (a b c : string) : (a ++ b) ++ c = a ++ (b ++ c).
Proof. induction a as [|x a IH]; simpl; [reflexivity | now rewrite IH]. Qed.

Lemma length_append (s t : string) :
  String.length (s ++ t) = String.length s + String.length t.
Proof.
  induction s as [|c s IH]; simpl; [reflexivity | now rewrite IH].
Qed.

Lemma json_escape_nonempty (c : ascii) : 1 <= String.length (json_escape c).
Proof.
  unfold json_escape.
  repeat match goal with
         | |- context [if ?b then _ else _] => destruct b
         end; simpl; lia.
Qed.

Lemma json_escape_all_length (s : string) :
  String.length s <= String.length (json_escape_all s).
Proof.
  induction s as [|c s IH]; simpl.
  - lia.
  - rewrite length_append. pose proof (json_escape_nonempty c). lia.
Qed.

(** The JSON literal of a text is two characters longer than the text at
    least, so it is never the text itself. *)
Lemma QuoteJSONString_longer (s : string) :
  String.length s + 2 <= String.length (QuoteJSONString s).
Proof.
  unfold QuoteJSONString. simpl. rewrite length_append. simpl.
  pose proof (json_escape_all_length s). lia.
Qed.

Lemma QuoteJSONString_neq (s : string) : QuoteJSONString s <> s.
Proof.
  intros H. pose proof (QuoteJSONString_longer s) as L.
  rewrite H in L. lia.
Qed.

(** ** JSON literals read back *)

Lemma json_unescape_escape (c : ascii) (rest : string) :
  json_unescape (json_escape c ++ rest) = option_map (String c) (json_unescape rest).
Proof.
  destruct c as [b0 b1 b2 b3 b4 b5 b6 b7].
  destruct b0, b1, b2, b3, b4, b5, b6, b7; reflexivity.
Qed.

Lemma json_unescape_escape_all (s : string) :
  json_unescape (json_escape_all s ++ String DQUOTE "") = Some s.
Proof.
  induction s as [|c s IH]; simpl.
  - reflexivity.
  - rewrite append_assoc, json_unescape_escape, IH. reflexivity.
Qed.

(** The literal written by [JSON.stringify] for a text parses back to the
    text. *)
Lemma JSON_parse_string_Quote (s : string) :
  JSON_parse_string (QuoteJSONString s) = Some s.
Proof.
  unfold JSON_parse_string, QuoteJSONString.
  replace (Ascii.eqb DQUOTE DQUOTE) with true by reflexivity.
  apply json_unescape_escape_all.
Qed.

(** ** The fields of a row *)

(** Reading a property of a truthy value never throws. *)
Lemma get_truthy (v : value) (k : string) :
  truthy v = true -> exists x, get v k = Normal x.
Proof.
  destruct v; simpl; intros H; try discriminate; eauto.
  destruct (lookup k props); eauto.
Qed.

Lemma details_truthy (result d : value) :
  details result = Normal d -> truthy d = true.
Proof.
  unfold details. destruct (get result "evaluation_details") as [x|e]; simpl; [|discriminate].
  intros H; injection H as <-. unfold or_else.
  destruct (truthy x) eqn:Hx; [exact Hx | reflexivity].
Qed.

(** [competencyScores] never throws on the details of a result. *)
Lemma competencyScores_total (d : value) :
  truthy d = true -> exists s, competencyScores d = Normal s.
Proof.
  intros Hd. unfold competencyScores.
  destruct (get_truthy d "competency_scores" Hd) as [cs ->]. simpl.
  destruct (truthy cs); eauto.
Qed.

Lemma citedEvidence_joinable (d ce : value) :
  get d "cited_evidence" = Normal ce ->
  evidence_joinable ce = true ->
  exists s, citedEvidence d = Normal s.
Proof.
  intros Hg Hj. unfold citedEvidence. rewrite Hg. cbn [bind].
  destruct (truthy ce) eqn:Ht; [|eauto].
  unfold evidence_joinable in Hj.
  destruct ce; eauto; rewrite Ht in Hj; discriminate.
Qed.

Lemma citedEvidence_not_joinable (d ce : value) :
  get d "cited_evidence" = Normal ce ->
  evidence_joinable ce = false ->
  exists e, citedEvidence d = Throw e.
Proof.
  intros Hg Hj. unfold citedEvidence. rewrite Hg. cbn [bind].
  unfold evidence_joinable in Hj.
  destruct ce; try discriminate;
    apply negb_false_iff in Hj; rewrite Hj; eauto.
Qed.

(** The six fields of the row of a result of the right shape. *)
Lemma fields_shape (result : value) :
  Result_shape result ->
  exists d fn sc pf ju ce cs,
    details result = Normal d /\
    get result "file_name" = Normal fn /\
    get result "score" = Normal sc /\
    get d "pass_fail_status" = Normal pf /\
    get d "justification" = Normal ju /\
    citedEvidence d = Normal ce /\
    competencyScores d = Normal cs /\
    fields result =
      Normal [ fn; sc; or_else pf (VStr "N/A");
               JSON_stringify_value (or_else ju (VStr ""));
               JSON_stringify_value (VStr ce);
               JSON_stringify_value (VStr cs) ].
Proof.
  intros (d & ce & Hd & Hce & Hj).
  pose proof (details_truthy _ _ Hd) as Ht.
  destruct (competencyScores_total d Ht) as [cs Hcs].
  destruct (citedEvidence_joinable d ce Hce Hj) as [ev Hev].
  destruct (get_truthy d "pass_fail_status" Ht) as [pf Hpf].
  destruct (get_truthy d "justification" Ht) as [ju Hju].
  assert (Hres : forall k, exists x, get result k = Normal x).
  { intros k. unfold details in Hd.
    destruct result; simpl in *; try discriminate; eauto.
    destruct (lookup k props); eauto. }
  destruct (Hres "file_name") as [fn Hfn].
  destruct (Hres "score") as [sc Hsc].
  exists d, fn, sc, pf, ju, ev, cs.
  repeat split; try assumption.
  unfold fields. rewrite Hd; simpl. rewrite Hcs; simpl. rewrite Hev; simpl.
  rewrite Hfn; simpl. rewrite Hsc; simpl. rewrite Hpf; simpl. rewrite Hju; simpl.
  reflexivity.
Qed.

(** [row], which makes its texts with [ToString], returns exactly on the
    results of the right shape. *)
Lemma row_returns_iff (result : value) :
  (exists line, row result = Normal line) <-> Result_shape result.
Proof.
  split.
  - intros [line H]. unfold row, fields in H.
    destruct (details result) as [d|e] eqn:Hd; [|discriminate].
    pose proof (details_truthy _ _ Hd) as Ht.
    destruct (get_truthy d "cited_evidence" Ht) as [ce Hce].
    exists d, ce. repeat split; try assumption.
    destruct (evidence_joinable ce) eqn:Hj; [reflexivity|].
    destruct (competencyScores_total d Ht) as [cs Hcs].
    destruct (citedEvidence_not_joinable d ce Hce Hj) as [e He].
    cbn [bind] in H. rewrite Hcs in H. cbn [bind] in H. rewrite He in H.
    discriminate.
  - intros Hs.
    destruct (fields_shape result Hs)
      as (d & fn & sc & pf & ju & ce & cs & _ & _ & _ & _ & _ & _ & _ & Hf).
    unfold row. rewrite Hf. cbn [bind]. eauto.
Qed.

(** ** The order of the competency scores *)

Lemma index_properties_named {A} (props : list (string * A)) :
  (forall k v, In (k, v) props -> is_array_index k = false) ->
  index_properties props = [].
Proof.
  induction props as [|[k v] t IH]; intros H; simpl.
  - reflexivity.
  - pose proof (H k v (or_introl eq_refl)) as Hk.
    unfold is_array_index in Hk.
    destruct (array_index k); [discriminate|].
    apply IH. intros k' v' Hin. apply (H k' v'). now right.
Qed.

Lemma named_properties_named {A} (props : list (string * A)) :
  (forall k v, In (k, v) props -> is_array_index k = false) ->
  named_properties props = props.
Proof.
  induction props as [|[k v] t IH]; intros H; simpl.
  - reflexivity.
  - rewrite (H k v (or_introl eq_refl)). simpl. f_equal.
    apply IH. intros k' v' Hin. apply (H k' v'). now right.
Qed.

(** An object none of whose keys is an array index is enumerated in the
    order in which its properties were created. *)
Lemma own_entries_named {A} (props : list (string * A)) :
  (forall k v, In (k, v) props -> is_array_index k = false) ->
  own_entries props = props.
Proof.
  intros H. unfold own_entries.
  now rewrite index_properties_named, named_properties_named.
Qed.

(** ** Claims *)

(** C1, as the specification states it, does not hold: the row exported
    for the example result is not the row with the six plain quoted
    fields. *)
Lemma C1_spec_row_refuted :
  row alice <>
  Normal (dq "'alice.pdf','82','Pass','Strong, clear communicator','5 yrs mgmt','Leadership: 4'").
Proof. vm_compute. discriminate. Qed.

(** C1, amended: for the example result the data row is
    [alice.pdf], [82], [Pass] quoted once, and the justification, the
    evidence and the competency scores as JSON string literals quoted
    again, so that each of the three carries three double quotes on either
    side; the file is the header row, a newline and that row. *)
Theorem C1_alice_row :
  row alice =
  Normal (dq "'alice.pdf','82','Pass','''Strong, clear communicator''','''5 yrs mgmt''','''Leadership: 4'''")
  /\
  downloadCsv [alice] =
  Normal (mkDownload "candidate_evaluation_results.csv" "text/csv;charset=utf-8;"
            (headerRow ++ newline ++
             dq "'alice.pdf','82','Pass','''Strong, clear communicator''','''5 yrs mgmt''','''Leadership: 4'''")).
Proof. split; vm_compute; reflexivity. Qed.

(** What a CSV reader finds in the row of the example: the last three
    texts keep the double quotes of their JSON literals. *)
Lemma alice_row_read_back :
  bind (row alice) (fun line => Normal (read_row line)) =
  Normal (Some [ "alice.pdf"; "82"; "Pass";
                 dq "'Strong, clear communicator'";
                 dq "'5 yrs mgmt'";
                 dq "'Leadership: 4'" ]).
Proof. vm_compute. reflexivity. Qed.

(** C2, as the specification states it, does not hold: for a justification
    with a comma the field read back is not the justification. *)
Lemma C2_roundtrip_refuted :
  read_back 3 carol <> Normal (Some "Clear, concise").
Proof. vm_compute. discriminate. Qed.

(** C2, amended: for every result and every justification text, reading
    the exported justification field back as a quoted CSV field gives the
    JSON string literal of the justification (the text between double
    quotes, with its double quotes, backslashes and control characters
    escaped), which is never the justification itself; the justification
    is what parsing that literal as JSON gives. *)
Theorem C2_read_back_is_json_literal (result d : value) (j : string) :
  Result_shape result ->
  details result = Normal d ->
  get d "justification" = Normal (VStr j) ->
  read_back 3 result = Normal (Some (QuoteJSONString j)) /\
  QuoteJSONString j <> j /\
  JSON_parse_string (QuoteJSONString j) = Some j.
Proof.
  intros Hs Hd Hj.
  split; [|split; [apply QuoteJSONString_neq | apply JSON_parse_string_Quote]].
  destruct (fields_shape result Hs)
    as (d' & fn & sc & pf & ju & ce & cs & Hd' & _ & _ & _ & Hju & _ & _ & Hf).
  rewrite Hd in Hd'. injection Hd' as <-.
  rewrite Hj in Hju. injection Hju as <-.
  unfold read_back, exported_field. rewrite Hf. cbn [bind map nth].
  rewrite csv_unquote_quoteField. do 2 f_equal.
  unfold or_else. destruct (truthy (VStr j)) eqn:Ht; [reflexivity|].
  simpl in Ht. apply negb_false_iff, String.eqb_eq in Ht. now subst j.
Qed.

(** C2, amended, at the result [carol]. *)
Lemma C2_read_back_is_json_literal_witness :
  read_back 3 carol = Normal (Some (QuoteJSONString "Clear, concise")) /\
  QuoteJSONString "Clear, concise" <> "Clear, concise" /\
  JSON_parse_string (QuoteJSONString "Clear, concise") = Some "Clear, concise".
Proof.
  apply (C2_read_back_is_json_literal carol carol_details "Clear, concise").
  - exists carol_details, VUndefined. repeat split; reflexivity.
  - reflexivity.
  - reflexivity.
Defined.




(** C4, as the specification states it, does not hold: with the keys [2]
    and [1] created in this order, the exported field does not list them
    in this order, neither as plain text nor as a JSON literal; it lists
    [1] first. *)
Lemma C4_insertion_order_refuted :
  read_back 5 dave <> Normal (Some "2: 3; 1: 4") /\
  read_back 5 dave <> Normal (Some (QuoteJSONString "2: 3; 1: 4")) /\
  read_back 5 dave = Normal (Some (QuoteJSONString "1: 4; 2: 3")).
Proof. repeat split; vm_compute; discriminate || reflexivity. Qed.

(** The exported competency field in general: the JSON literal of the
    entries in the enumeration order of the object, array indices first. *)
Lemma competency_field_enumeration (result d : value) (props : list (string * value)) :
  Result_shape result ->
  details result = Normal d ->
  get d "competency_scores" = Normal (VObj props) ->
  competencyScores d = Normal (join "; " (map render_entry (own_entries props))) /\
  read_back 5 result =
    Normal (Some (QuoteJSONString (join "; " (map render_entry (own_entries props))))).
Proof.
  intros Hs Hd Hc.
  assert (Hcs : competencyScores d =
                Normal (join "; " (map render_entry (own_entries props)))).
  { unfold competencyScores. rewrite Hc. reflexivity. }
  split; [exact Hcs|].
  destruct (fields_shape result Hs)
    as (d' & fn & sc & pf & ju & ce & cs & Hd' & _ & _ & _ & _ & _ & Hcs' & Hf).
  rewrite Hd in Hd'. injection Hd' as <-.
  rewrite Hcs in Hcs'. injection Hcs' as <-.
  unfold read_back, exported_field. rewrite Hf. cbn [bind map nth].
  now rewrite csv_unquote_quoteField.
Qed.

(** C4, amended: for every result with a [competency_scores] object none of
    whose keys is an array index (the canonical numeral of an integer from
    0 to 2^32 - 2), the competency text lists the entries as [name: value]
    joined by [; ] in the order in which the keys were inserted, and the
    exported field is the JSON literal of that text. *)
Theorem C4_competency_scores_order (result d : value) (props : list (string * value)) :
  Result_shape result ->
  details result = Normal d ->
  get d "competency_scores" = Normal (VObj props) ->
  (forall k v, In (k, v) props -> is_array_index k = false) ->
  competencyScores d = Normal (join "; " (map render_entry props)) /\
  read_back 5 result =
    Normal (Some (QuoteJSONString (join "; " (map render_entry props)))).
Proof.
  intros Hs Hd Hc Hn.
  rewrite <- (own_entries_named props Hn) at 1 2.
  now apply competency_field_enumeration.
Qed.

(** C4, amended, at the result [erin] with its three named competencies. *)
Lemma C4_competency_scores_order_witness :
  competencyScores erin_details
  = Normal (join "; " (map render_entry erin_scores)) /\
  read_back 5 erin =
    Normal (Some (QuoteJSONString (join "; " (map render_entry erin_scores)))).
Proof.
  apply (C4_competency_scores_order erin erin_details erin_scores).
  - exists erin_details, VUndefined. repeat split; reflexivity.
  - reflexivity.
  - reflexivity.
  - intros k v [H|[H|[H|[]]]]; injection H as <- _; reflexivity.
Defined.

(** C5: on the empty sequence of results the serialization does not fail
    and the file is exactly the quoted header row: no newline after it and
    no other row. *)
Theorem C5_empty_results :
  csvContent [] =
    Normal (dq "'File Name','Score','Pass/Fail','Justification','Cited Evidence','Competency Scores'")
  /\
  downloadCsv [] =
    Normal (mkDownload "candidate_evaluation_results.csv" "text/csv;charset=utf-8;"
              (dq "'File Name','Score','Pass/Fail','Justification','Cited Evidence','Competency Scores'")).
Proof. split; vm_compute; reflexivity. Qed.

(** The button that calls [downloadCsv] is not rendered for an empty
    sequence. *)
Lemma ResultsTable_empty : ResultsTable (VArr []) = Normal NoDataMessage.
Proof. reflexivity. Qed.

(** ** Reading a whole row back *)

Lemma read_fields_last (s : string) :
  read_fields (replace_quotes s ++ String DQUOTE "") = Some [s].
Proof.
  induction s as [|c s IH]; simpl.
  - reflexivity.
  - destruct (Ascii.eqb c DQUOTE) eqn:Hc; simpl.
    + apply Ascii.eqb_eq in Hc; subst c. rewrite IH. reflexivity.
    + rewrite Hc, IH. reflexivity.
Qed.

Lemma read_fields_next (s rest : string) :
  read_fields (replace_quotes s ++ String DQUOTE (String ","%char rest)) =
  option_map (cons s) (read_row rest).
Proof.
  induction s as [|c s IH]; simpl.
  - destruct rest as [|c r]; simpl; [reflexivity|].
    destruct (Ascii.eqb c DQUOTE); reflexivity.
  - destruct (Ascii.eqb c DQUOTE) eqn:Hc; simpl.
    + apply Ascii.eqb_eq in Hc; subst c. rewrite IH.
      destruct (read_row rest); reflexivity.
    + rewrite Hc, IH. destruct (read_row rest); reflexivity.
Qed.

(** A row of quoted fields reads back as the texts of its fields. *)
Lemma read_row_quoted (fs : list value) :
  fs <> [] ->
  read_row (join "," (map quoteField fs)) = Some (map ToString fs).
Proof.
  induction fs as [|x t IH]; intros Hne; [contradiction|].
  destruct t as [|y t].
  - simpl. apply read_fields_last.
  - change (join "," (map quoteField (x :: y :: t)))
      with (quoteField x ++ "," ++ join "," (map quoteField (y :: t))).
    specialize (IH ltac:(discriminate)).
    set (rest := join "," (map quoteField (y :: t))) in *.
    unfold quoteField. cbn [String.append read_row].
    rewrite append_assoc. cbn [String.append].
    replace (Ascii.eqb DQUOTE DQUOTE) with true by reflexivity.
    rewrite read_fields_next, IH.
    reflexivity.
Qed.

(** ** Totality *)

Lemma rows_total (results : list value) :
  Forall Result_shape results ->
  exists lines, rows results = Normal lines /\ Forall2 (fun r l => row r = Normal l) results lines.
Proof.
  induction 1 as [|r t Hr _ IH].
  - exists []. split; [reflexivity | constructor].
  - apply row_returns_iff in Hr. destruct Hr as [l Hl].
    destruct IH as (ls & Hls & Hall).
    exists (l :: ls). split.
    + unfold rows in *. simpl. rewrite Hl. simpl. rewrite Hls. reflexivity.
    + now constructor.
Qed.

(** C10, as the specification states it, does not hold: the export is not
    total over field values of any type.  For a result whose
    [cited_evidence] is a text, the call of [join] throws, and with it
    [downloadCsv] on a sequence that holds the result: no file is
    produced, not even the rows of the other results. *)
Lemma C10_text_evidence_refuted :
  row gina = Throw (mkExn TypeError "details.cited_evidence.join is not a function") /\
  downloadCsv [alice; gina] =
    Throw (mkExn TypeError "details.cited_evidence.join is not a function").
Proof. split; reflexivity. Qed.

(** C10, amended: for every sequence of exportable results (each result an
    object; its [cited_evidence], when truthy, an array; no object with a
    [toString] of its own among the values that are converted to a
    string), and whatever the types of [file_name], [score] and the other
    properties are otherwise, [downloadCsv] returns a file made of the
    header row and one row for each result; each row reads back as six
    fields, the first two being [String(file_name)] and [String(score)]; a
    missing [file_name] gives the text [undefined]. *)
Theorem C10_rows_total (results : list value) :
  Forall exportable results ->
  exists lines,
    downloadCsv results =
      Normal (mkDownload "candidate_evaluation_results.csv" "text/csv;charset=utf-8;"
                (join newline (headerRow :: lines))) /\
    Forall2
      (fun result line =>
         exists fn sc t3 t4 t5 t6,
           get result "file_name" = Normal fn /\
           get result "score" = Normal sc /\
           read_row line = Some [ToString fn; ToString sc; t3; t4; t5; t6] /\
           (fn = VUndefined -> read_back 0 result = Normal (Some "undefined")))
      results lines.
Proof.
  intros Hexp.
  assert (Hall : Forall Result_shape results).
  { eapply Forall_impl; [|exact Hexp]. intros r [Hs _]. exact Hs. }
  clear Hexp.
  destruct (rows_total results Hall) as (lines & Hrows & Hlines).
  exists lines. split.
  - unfold downloadCsv, csvContent. rewrite Hrows. reflexivity.
  - clear Hrows. induction Hlines as [|r l rs ls Hrow _ IH]; constructor.
    + inversion Hall as [|? ? Hs _]; subst.
      destruct (fields_shape r Hs)
        as (d & fn & sc & pf & ju & ce & cs & _ & Hfn & Hsc & _ & _ & _ & _ & Hf).
      unfold row in Hrow. rewrite Hf in Hrow. cbn [bind] in Hrow.
      assert (Hl : l = join "," (map quoteField
                     [ fn; sc; or_else pf (VStr "N/A");
                       JSON_stringify_value (or_else ju (VStr ""));
                       JSON_stringify_value (VStr ce);
                       JSON_stringify_value (VStr cs) ]))
        by congruence.
      clear Hrow. subst l.
      eexists fn, sc, _, _, _, _. repeat split; try assumption.
      * rewrite read_row_quoted by discriminate. reflexivity.
      * intros ->. unfold read_back, exported_field. rewrite Hf. reflexivity.
    + apply IH. now inversion Hall.
Qed.

(** C10, amended, at the example result followed by one with values of
    unexpected types: no file name, a [null] score, a number as
    justification and a text as competency scores. *)
Lemma C10_rows_total_witness :
  exists lines,
    downloadCsv [alice; frank] =
      Normal (mkDownload "candidate_evaluation_results.csv" "text/csv;charset=utf-8;"
                (join newline (headerRow :: lines))) /\
    Forall2
      (fun result line =>
         exists fn sc t3 t4 t5 t6,
           get result "file_name" = Normal fn /\
           get result "score" = Normal sc /\
           read_row line = Some [ToString fn; ToString sc; t3; t4; t5; t6] /\
           (fn = VUndefined -> read_back 0 result = Normal (Some "undefined")))
      [alice; frank] lines.
Proof.
  apply (C10_rows_total [alice; frank]).
  repeat constructor.
  - exists alice_details, (VArr [VStr "5 yrs mgmt"]). repeat split; reflexivity.
  - eexists. split; reflexivity.
  - exists frank_details, VUndefined. repeat split; reflexivity.
  - eexists. split; reflexivity.
Defined.

(** The row of a result with values of unexpected types. *)
Lemma frank_row :
  row frank = Normal (dq "'undefined','null','N/A','5','''''','''0: n; 1: /; 2: a'''").
Proof. vm_compute. reflexivity. Qed.

(** A [cited_evidence] that is a text makes the export throw. *)
Lemma row_throws_on_text_evidence :
  row gina = Throw (mkExn TypeError "details.cited_evidence.join is not a function").
Proof. reflexivity. Qed.

(* ===================================================================== *)
(** * 11. Properties of the API client                                    *)
(* ===================================================================== *)

(** ** The run of sequences, [try] and [finally] *)

Section RunLemmas.

Context {S U : Type}.
Variable apply : U -> S -> S.
Variable E : env.

Lemma run_pbind {A B} (p : Proc U A) (k : A -> Proc U B) (w : world S U) :
  run apply E (pbind p k) w =
  match run apply E p w with
  | (w1, Normal a) => run apply E (k a) w1
  | (w1, Throw e) => (w1, Throw e)
  end.
Proof.
  revert w. induction p as [a|e|X ev h IH]; intros w; simpl; try reflexivity.
  destruct (handle apply E ev w) as [w' x]. apply IH.
Qed.

Lemma run_try_catch {A} (p : Proc U A) (h : exn -> Proc U A) (w : world S U) :
  run apply E (try_catch p h) w =
  match run apply E p w with
  | (w1, Normal a) => (w1, Normal a)
  | (w1, Throw e) => run apply E (h e) w1
  end.
Proof.
  revert w. induction p as [a|e|X ev k IH]; intros w; simpl; try reflexivity.
  destruct (handle apply E ev w) as [w' x]. apply IH.
Qed.

Lemma run_finally {A} (p : Proc U A) (f : Proc U unit) (w : world S U) :
  run apply E (finally p f) w =
  match run apply E p w with
  | (w1, c) =>
      match run apply E f w1 with
      | (w2, Normal _) => (w2, c)
      | (w2, Throw e) => (w2, Throw e)
      end
  end.
Proof.
  revert w. induction p as [a|e|X ev k IH]; intros w; simpl.
  - rewrite run_pbind. destruct (run apply E f w) as [w2 [[]|e]]; reflexivity.
  - rewrite run_pbind. destruct (run apply E f w) as [w2 [[]|e']]; reflexivity.
  - destruct (handle apply E ev w) as [w' x]. apply IH.
Qed.

Lemma run_lift {A} (c : Completion A) (w : world S U) :
  run apply E (lift c) w = (w, c).
Proof. destruct c; reflexivity. Qed.

(** ** What an operation does *)

Lemma perform_api_call (PROD : bool) (op : operation) :
  @perform PROD U op =
  api_call (console_label op) (default_message op) (request_of PROD op).
Proof. destruct op; reflexivity. Qed.

Lemma run_api_call (label default : string) (req : request) (w : world S U) :
  run apply E (api_call label default req) w =
  (log_error label (tried default (network E (fetches w) req)) (issue E req w),
   settled default (network E (fetches w) req)).
Proof.
  unfold api_call. rewrite run_pbind, run_try_catch.
  unfold fetch, settled, tried. cbn [run handle pbind].
  destruct (network E (fetches w) req) as [resp|e]; [|reflexivity].
  cbn [lift run bind pbind]. unfold response_json.
  destruct (negb (ok resp)).
  - destruct (json resp) as [errorData|e]; [|reflexivity].
    cbn [lift pbind bind].
    destruct (get errorData "detail") as [detail|e]; [|reflexivity].
    cbn [lift pbind bind].
    destruct (new_Error (or_else detail (VStr default))) as [error|e]; reflexivity.
  - cbn [run bind log_error]. apply run_lift.
Qed.

(** Every operation sends its request, logs the error thrown inside its
    [try] block, and settles as [settled] says. *)
Lemma run_perform (PROD : bool) (op : operation) (w : world S U) :
  run apply E (perform PROD op) w =
  (log_error (console_label op)
     (tried (default_message op) (network E (fetches w) (request_of PROD op)))
     (issue E (request_of PROD op) w),
   settled (default_message op) (network E (fetches w) (request_of PROD op))).
Proof. rewrite perform_api_call. apply run_api_call. Qed.

End RunLemmas.

(** ** Claims *)

(** C6, as the specification states it, does not hold: when the body of a
    failed response is not JSON, [getRoles] does not throw an error with
    its default message; it throws the error of the parser. *)
Lemma C6_unparsable_body_refuted :
  thrown_message
    (snd (run details_apply broken_server (getRoles false) (mount details_initial)))
  <> Some "Failed to fetch roles".
Proof. vm_compute. discriminate. Qed.

(** C6, amended: for every operation and every response whose status is
    not 2xx, the operation throws.  When the body parses as JSON and its
    [detail] is a string that is not empty, it throws an [Error] whose
    message is that string; when the body parses and [detail] is absent or
    falsy (the empty string included), an [Error] with the default message
    of the operation; when the body is not JSON, the error raised by the
    parser is thrown as it is, and so is the error of the property access
    when the body is the JSON [null]. *)
Theorem C6_failed_call_throws {S U} (apply : U -> S -> S) (E : env) (PROD : bool)
    (op : operation) (w : world S U) (r : response) :
  network E (fetches w) (request_of PROD op) = Normal r ->
  ok r = false ->
  (exists e, snd (run apply E (perform PROD op) w) = Throw e) /\
  (forall body s,
      json r = Normal body -> get body "detail" = Normal (VStr s) -> s <> "" ->
      snd (run apply E (perform PROD op) w) = Throw (mkExn Error s)) /\
  (forall body detail,
      json r = Normal body -> get body "detail" = Normal detail -> truthy detail = false ->
      snd (run apply E (perform PROD op) w) = Throw (mkExn Error (default_message op))) /\
  (forall body e,
      json r = Normal body -> get body "detail" = Throw e ->
      snd (run apply E (perform PROD op) w) = Throw e) /\
  (forall e,
      json r = Throw e ->
      snd (run apply E (perform PROD op) w) = Throw e).
Proof.
  intros Hnet Hok. rewrite run_perform, Hnet. cbn [snd].
  unfold settled, tried. cbn [bind]. rewrite Hok. cbn [negb].
  repeat split.
  - destruct (json r) as [body|e]; cbn [bind]; [|eauto].
    destruct (get body "detail") as [detail|e]; cbn [bind]; [|eauto].
    destruct (new_Error (or_else detail (VStr (default_message op)))); cbn [bind]; eauto.
  - intros body s -> Hd Hs. cbn [bind]. rewrite Hd. cbn [bind].
    unfold or_else. cbn [truthy].
    destruct (String.eqb s "") eqn:He; [apply String.eqb_eq in He; contradiction|].
    reflexivity.
  - intros body detail -> Hd Ht. cbn [bind]. rewrite Hd. cbn [bind].
    unfold or_else. rewrite Ht. reflexivity.
  - intros body e -> Hd. cbn [bind]. rewrite Hd. reflexivity.
  - intros e ->. reflexivity.
Qed.

(** C6, amended, at [createRole] against the server that answers 400. *)
Lemma C6_failed_call_throws_witness :
  (exists e,
      snd (run form_apply refusing_server
             (perform false (CreateRole (VStr "") (VStr "Sells things") VUndefined))
             (mount form_initial))
      = Throw e) /\
  (forall body s,
      json title_required = Normal body -> get body "detail" = Normal (VStr s) ->
      s <> "" ->
      snd (run form_apply refusing_server
             (perform false (CreateRole (VStr "") (VStr "Sells things") VUndefined))
             (mount form_initial))
      = Throw (mkExn Error s)) /\
  (forall body detail,
      json title_required = Normal body -> get body "detail" = Normal detail ->
      truthy detail = false ->
      snd (run form_apply refusing_server
             (perform false (CreateRole (VStr "") (VStr "Sells things") VUndefined))
             (mount form_initial))
      = Throw (mkExn Error
                 (default_message (CreateRole (VStr "") (VStr "Sells things") VUndefined)))) /\
  (forall body e,
      json title_required = Normal body -> get body "detail" = Throw e ->
      snd (run form_apply refusing_server
             (perform false (CreateRole (VStr "") (VStr "Sells things") VUndefined))
             (mount form_initial))
      = Throw e) /\
  (forall e,
      json title_required = Throw e ->
      snd (run form_apply refusing_server
             (perform false (CreateRole (VStr "") (VStr "Sells things") VUndefined))
             (mount form_initial))
      = Throw e).
Proof.
  apply (C6_failed_call_throws form_apply refusing_server false
           (CreateRole (VStr "") (VStr "Sells things") VUndefined)
           (mount form_initial) title_required).
  - reflexivity.
  - reflexivity.
Defined.

(** The messages of the example: the server's [detail] when there is one,
    the parser's message when the body is not JSON. *)
Lemma createRole_title_required :
  thrown_message
    (snd (run form_apply refusing_server
            (createRole false (VStr "") (VStr "Sells things") VUndefined)
            (mount form_initial)))
  = Some "title required".
Proof. reflexivity. Qed.

Lemma getRoles_not_json :
  thrown_message
    (snd (run details_apply broken_server (getRoles false) (mount details_initial)))
  = Some "Unexpected token I in JSON at position 0".
Proof. reflexivity. Qed.

(** C9: the form data of [createRole] always holds [title] and
    [description], in this order; it holds [old_rubric], with the template
    as its value, exactly when the template is truthy: for a string, when
    it is not empty; not when it is absent.  This form data is the body of
    the request that is sent. *)
Theorem C9_old_rubric_field {S U} (apply : U -> S -> S) (E : env) (PROD : bool)
    (title description : value) (s : string) (w : world S U) :
  createRole_formData title description (VStr s) =
    ([ ("title", FText (ToString title));
       ("description", FText (ToString description)) ] ++
     (if String.eqb s "" then [] else [("old_rubric", FText s)]))%list /\
  createRole_formData title description VUndefined =
    [ ("title", FText (ToString title));
      ("description", FText (ToString description)) ] /\
  (forall oldRubric,
      has_field "title" (createRole_formData title description oldRubric) = true /\
      has_field "description" (createRole_formData title description oldRubric) = true /\
      has_field "old_rubric" (createRole_formData title description oldRubric)
        = truthy oldRubric /\
      sent (fst (run apply E (createRole PROD title description oldRubric) w)) =
        (sent w ++
         [ mkRequest (BASE_URL PROD ++ "/api/roles") "POST"
             (Some (createRole_formData title description oldRubric)) ])%list).
Proof.
  repeat split.
  - unfold createRole_formData. simpl. destruct (String.eqb s ""); reflexivity.
  - unfold createRole_formData. destruct (truthy oldRubric); reflexivity.
  - unfold createRole_formData. destruct (truthy oldRubric); reflexivity.
  - unfold createRole_formData. destruct (truthy oldRubric); reflexivity.
  - change (createRole PROD title description oldRubric)
      with (@perform PROD U (CreateRole title description oldRubric)).
    rewrite run_perform. cbn [fst].
    destruct (tried _ _); reflexivity.
Qed.

(* ===================================================================== *)
(** * 12. Properties of the view handlers                                 *)
(* ===================================================================== *)

(** C7: when [createRole] fails with the error [e] while the form is
    mounted, [handleSubmit] ends with the error state of the form equal to
    the message of [e], the title and the description as they were, the
    loading flag down, and no navigation and no alert; its own promise is
    fulfilled. *)
Theorem C7_failed_create_shows_error (E : env) (PROD : bool)
    (w : world form_state form_update) (e : exn) :
  mounted w = true ->
  leaves E (fetches w) = false ->
  snd (run form_apply E
         (createRole PROD (VStr (title (view w))) (VStr (description (view w)))
            (VStr oldRubricTemplate)) w) = Throw e ->
  let w' := fst (run form_apply E (handleSubmit PROD (view w)) w) in
  form_error (view w') = Some (message e) /\
  navigations w' = navigations w /\
  alerts w' = alerts w /\
  title (view w') = title (view w) /\
  description (view w') = description (view w) /\
  form_loading (view w') = false /\
  snd (run form_apply E (handleSubmit PROD (view w)) w) = Normal tt.
Proof.
  destruct w as [v m n snt con al nav pr ap]. cbn [mounted fetches view].
  intros -> Hl Hthrow. unfold handleSubmit.
  set (op := CreateRole (VStr (title v)) (VStr (description v)) (VStr oldRubricTemplate)).
  change (createRole PROD (VStr (title v)) (VStr (description v)) (VStr oldRubricTemplate))
    with (@perform PROD form_update op) in *.
  pose proof (run_perform form_apply E PROD op) as Hrun.
  set (c := @perform PROD form_update op) in *. clearbody c.
  rewrite Hrun in Hthrow. cbn [snd fetches] in Hthrow.
  cbv zeta. cbn [trigger pbind run handle].
  unfold dispatch. cbn [mounted fetches view sent console alerts navigations
                                 prevented applied form_apply].
  rewrite run_finally, run_try_catch, run_pbind, Hrun.
  cbn [fetches].
  set (o := network E n (request_of PROD op)) in *.
  rewrite Hthrow.
  unfold settled in Hthrow.
  unfold issue. cbn [mounted fetches view sent console alerts navigations
                       prevented applied andb].
  rewrite Hl. cbn [negb].
  destruct (tried (default_message op) o) as [r|e'] eqn:Ht;
    cbn [log_error bind] in *.
  - (* the response was returned by the [try] block and its body did not parse *)
    cbn [trigger run handle]. unfold dispatch. cbn. repeat split; reflexivity.
  - injection Hthrow as ->.
    cbn [trigger pbind run handle]. unfold dispatch. cbn. repeat split; reflexivity.
Qed.

(** C7 at the example of the specification: the server answers 400 with
    the detail [title required]. *)
Lemma C7_failed_create_shows_error_witness :
  form_error
    (view (fst (run form_apply refusing_server
                  (handleSubmit false (view form_mounted)) form_mounted)))
  = Some (message (mkExn Error "title required")) /\
  navigations (fst (run form_apply refusing_server
                      (handleSubmit false (view form_mounted)) form_mounted))
  = navigations form_mounted /\
  alerts (fst (run form_apply refusing_server
                 (handleSubmit false (view form_mounted)) form_mounted))
  = alerts form_mounted /\
  title (view (fst (run form_apply refusing_server
                      (handleSubmit false (view form_mounted)) form_mounted)))
  = title (view form_mounted) /\
  description (view (fst (run form_apply refusing_server
                            (handleSubmit false (view form_mounted)) form_mounted)))
  = description (view form_mounted) /\
  form_loading (view (fst (run form_apply refusing_server
                             (handleSubmit false (view form_mounted)) form_mounted)))
  = false /\
  snd (run form_apply refusing_server (handleSubmit false (view form_mounted)) form_mounted)
  = Normal tt.
Proof.
  apply (C7_failed_create_shows_error refusing_server false form_mounted
           (mkExn Error "title required")).
  - reflexivity.
  - reflexivity.
  - reflexivity.
Defined.

(** ** Updates after the component was unmounted *)

Section Unmounted.

Context {S U : Type}.
Variable apply : U -> S -> S.
Variable E : env.

Lemma handle_unmounted {X} (ev : event U X) (w : world S U) :
  mounted w = false ->
  mounted (fst (handle apply E ev w)) = false /\
  view (fst (handle apply E ev w)) = view w /\
  applied (fst (handle apply E ev w)) = applied w.
Proof.
  intros Hm. destruct ev; cbn [handle fst issue mounted view applied];
    try (repeat split; (assumption || reflexivity)).
  - rewrite Hm. repeat split; reflexivity.
  - unfold dispatch. rewrite Hm. repeat split; (assumption || reflexivity).
Qed.

(** Once the component is unmounted, nothing a handler does changes its
    state. *)
Lemma run_unmounted {A} (p : Proc U A) (w : world S U) :
  mounted w = false ->
  view (fst (run apply E p w)) = view w /\
  applied (fst (run apply E p w)) = applied w.
Proof.
  revert w. induction p as [a|e|X ev k IH]; intros w Hm; cbn [run fst].
  - split; reflexivity.
  - split; reflexivity.
  - destruct (handle_unmounted ev w Hm) as (Hm' & Hv & Ha).
    destruct (handle apply E ev w) as [w1 x]. cbn [fst] in *.
    destruct (IH x w1 Hm') as [Hv' Ha']. split; congruence.
Qed.

(** The state after a run is the state before it, changed by the updates
    that the run applied; each was applied after at least as many requests
    as had been sent before the run; and if the user left while request [n]
    was in flight, none was applied after more than [n] requests. *)
Lemma run_log {A} (p : Proc U A) (w : world S U) :
  exists new,
    applied (fst (run apply E p w)) = (applied w ++ new)%list /\
    view (fst (run apply E p w)) = replay apply new (view w) /\
    Forall (fun e => fetches w <= fst e) new /\
    (forall n, fetches w <= n -> leaves E n = true -> Forall (fun e => fst e <= n) new).
Proof.
  revert w. induction p as [a|e|X ev k IH]; intros w; cbn [run fst].
  - exists []. rewrite app_nil_r. repeat split; constructor.
  - exists []. rewrite app_nil_r. repeat split; constructor.
  - destruct ev; cbn [handle].
    + (* a request goes out *)
      specialize (IH (network E (fetches w) req) (issue E req w)).
      destruct IH as (new & Ha & Hv & Hge & Hle).
      exists new. cbn [issue applied view fetches] in *.
      repeat split; try assumption.
      * eapply Forall_impl; [|exact Hge]. cbn. intros; lia.
      * intros n Hn Hleft.
        destruct (Nat.eq_dec (fetches w) n) as [<-|Hneq].
        -- assert (Hm : mounted (issue E req w) = false).
           { cbn [issue mounted]. rewrite Hleft. apply andb_false_r. }
           destruct (run_unmounted (k (network E (fetches w) req)) _ Hm) as [_ Hsame].
           cbn [issue applied] in Hsame. rewrite Hsame in Ha.
           rewrite <- (app_nil_r (applied w)) in Ha at 1.
           apply app_inv_head in Ha. subst new. constructor.
        -- apply Hle; [lia | assumption].
    + unchanged_step IH.
    + (* a state setter is called *)
      unfold dispatch. destruct (mounted w) eqn:Hm.
      * match goal with
        | |- context [run apply E (k tt) ?w1] =>
            destruct (IH tt w1) as (new & Ha & Hv & Hge & Hle)
        end.
        cbn [applied view fetches] in *.
        exists ((fetches w, u) :: new). repeat split.
        -- rewrite Ha, <- app_assoc. reflexivity.
        -- exact Hv.
        -- constructor; [cbn; lia | assumption].
        -- intros n Hn Hleft. constructor; [cbn; lia | now apply Hle].
      * apply IH.
    + unchanged_step IH.
    + unchanged_step IH.
    + unchanged_step IH.
Qed.

(** A handler of the form
    [try { ... } catch (err) { setState } finally { setState }]
    never throws. *)
Lemma run_guarded (body : Proc U unit) (onError : exn -> U) (atEnd : U) (w : world S U) :
  snd (run apply E
         (finally (try_catch body (fun err => trigger (SetState (onError err))))
                  (trigger (SetState atEnd))) w) = Normal tt.
Proof.
  rewrite run_finally, run_try_catch.
  destruct (run apply E body w) as [w1 [[]|e]]; reflexivity.
Qed.

End Unmounted.

(** [fetchData] never throws: its promise is always fulfilled. *)
Lemma fetchData_fulfilled (E : env) (PROD : bool) (id : value)
    (w : world details_state details_update) :
  snd (run details_apply E (fetchData PROD id) w) = Normal tt.
Proof.
  unfold fetchData. cbn [trigger pbind run handle].
  apply run_guarded.
Qed.

(** [handleResumeUpload] never throws either. *)
Lemma handleResumeUpload_fulfilled (E : env) (PROD : bool) (id : value) (file : File)
    (w : world details_state details_update) :
  snd (run details_apply E (handleResumeUpload PROD id file) w) = Normal tt.
Proof.
  unfold handleResumeUpload. cbn [trigger pbind run handle].
  apply run_guarded.
Qed.

(** C8: for every request [n] of [fetchData] that is in flight when the
    user navigates away, the response that arrives afterwards changes
    nothing in the state of the view: the role, the results, the loading
    flag and the error are the ones left by the updates applied before
    that request went out (each entry of [new] was applied when at most
    [n] requests had been sent), and the promise of [fetchData] is
    fulfilled, not rejected.  The late updates are dropped by the state
    setters, see [dispatch]; [fetchData] itself goes on and still sends
    the request that follows. *)
Theorem C8_late_response_discarded (E : env) (PROD : bool) (id : value)
    (w : world details_state details_update) (n : nat) :
  fetches w <= n ->
  leaves E n = true ->
  let w' := fst (run details_apply E (fetchData PROD id) w) in
  (exists new,
      applied w' = (applied w ++ new)%list /\
      view w' = replay details_apply new (view w) /\
      Forall (fun e => fst e <= n) new) /\
  snd (run details_apply E (fetchData PROD id) w) = Normal tt.
Proof.
  intros Hn Hleft. cbv zeta. split; [|apply fetchData_fulfilled].
  destruct (run_log details_apply E (fetchData PROD id) w)
    as (new & Ha & Hv & _ & Hle).
  exists new. repeat split; try assumption. now apply Hle.
Qed.

(** C8 at a user who leaves while the request for the role is in flight. *)
Lemma C8_late_response_discarded_witness :
  (exists new,
      applied (fst (run details_apply leaving_user (fetchData false (VStr "7"))
                      details_mounted))
      = (applied details_mounted ++ new)%list /\
      view (fst (run details_apply leaving_user (fetchData false (VStr "7"))
                   details_mounted))
      = replay details_apply new (view details_mounted) /\
      Forall (fun e => fst e <= 0) new) /\
  snd (run details_apply leaving_user (fetchData false (VStr "7")) details_mounted)
  = Normal tt.
Proof.
  apply (C8_late_response_discarded leaving_user false (VStr "7") details_mounted 0).
  - exact (le_n 0).
  - reflexivity.
Defined.

(** When the user leaves during the first request of [fetchData], the
    state of the view stays the one of the moment the request went out,
    whatever the server answers. *)
Lemma fetchData_left_during_first_request (E : env) (PROD : bool) (id : value)
    (w : world details_state details_update) :
  mounted w = true ->
  leaves E (fetches w) = true ->
  view (fst (run details_apply E (fetchData PROD id) w)) =
  details_apply (setError None) (details_apply (setLoading true) (view w)).
Proof.
  destruct w as [v m n snt con al nav pr ap]. cbn [mounted fetches view].
  intros -> Hleft.
  unfold fetchData, getRoleDetails, fetch.
  cbn [trigger pbind run handle finally try_catch].
  unfold dispatch. cbn [mounted fetches view sent console alerts navigations
                          prevented applied].
  match goal with
  | |- view (fst (run _ _ ?p ?w1)) = _ =>
      destruct (run_unmounted details_apply E p w1) as [Hv _]
  end.
  - cbn [issue mounted fetches]. rewrite Hleft. reflexivity.
  - rewrite Hv. reflexivity.
Qed.

(** The requests are not cancelled: in that run the request for the results
    is still sent after the user has left, and the state of the view is the
    initial one. *)
Lemma fetchData_leaving_user :
  map url (sent (fst (run details_apply leaving_user (fetchData false (VStr "7"))
                        (mount details_initial))))
  = [ "http://localhost:8000/api/roles/7"; "http://localhost:8000/api/roles/7/results" ] /\
  view (fst (run details_apply leaving_user (fetchData false (VStr "7"))
               (mount details_initial)))
  = details_initial.
Proof. split; reflexivity. Qed.

(** With the same server and a user who stays, the role and the results
    are stored and the loading flag is lowered. *)
Lemma fetchData_staying_user :
  view (fst (run details_apply staying_user (fetchData false (VStr "7"))
               (mount details_initial)))
  = mkDetails role_seven role_seven false None false.
Proof. reflexivity. Qed.

(* ===================================================================== *)
(** * 13. Further properties of the API client                            *)
(* ===================================================================== *)

(** X1: on a response with a 2xx status whose body parses, each of the five
    operations returns the parsed body; its one request has gone out and
    nothing else has changed, the console included. *)
Theorem api_success_returns_body {S U} (apply : U -> S -> S) (E : env) (PROD : bool)
    (op : operation) (w : world S U) (r : response) (v : value) :
  network E (fetches w) (request_of PROD op) = Normal r ->
  ok r = true ->
  json r = Normal v ->
  run apply E (perform PROD op) w = (issue E (request_of PROD op) w, Normal v).
Proof.
  intros Hnet Hok Hjson. rewrite run_perform, Hnet.
  unfold settled, tried. cbn [bind]. rewrite Hok. cbn [negb bind log_error].
  now rewrite Hjson.
Qed.

(** X1 at [getRoleDetails] against the server that answers 200. *)
Lemma api_success_returns_body_witness :
  run details_apply staying_user (perform false (GetRoleDetails (VStr "7"))) details_mounted
  = (issue staying_user (request_of false (GetRoleDetails (VStr "7"))) details_mounted,
     Normal role_seven).
Proof.
  apply (api_success_returns_body details_apply staying_user false
           (GetRoleDetails (VStr "7")) details_mounted
           (mkResponse 200 (Normal role_seven)) role_seven);
    reflexivity.
Defined.

(** X2: when the request itself fails ([fetch] rejects), each operation
    throws the error of [fetch] unchanged, after it has written it to the
    console once, under its own label. *)
Theorem api_network_failure_rethrown {S U} (apply : U -> S -> S) (E : env) (PROD : bool)
    (op : operation) (w : world S U) (e : exn) :
  network E (fetches w) (request_of PROD op) = Throw e ->
  snd (run apply E (perform PROD op) w) = Throw e /\
  console (fst (run apply E (perform PROD op) w)) =
    (console w ++ [(console_label op, e)])%list.
Proof.
  intros Hnet. rewrite run_perform, Hnet. split; reflexivity.
Qed.

(** X2 at [uploadResume] while the network is down. *)
Lemma api_network_failure_rethrown_witness :
  snd (run details_apply offline (perform false (UploadResume (VStr "7") resume))
         details_mounted)
  = Throw (mkExn TypeError "Failed to fetch") /\
  console (fst (run details_apply offline (perform false (UploadResume (VStr "7") resume))
                  details_mounted))
  = (console details_mounted ++
     [(console_label (UploadResume (VStr "7") resume),
       mkExn TypeError "Failed to fetch")])%list.
Proof.
  apply (api_network_failure_rethrown details_apply offline false
           (UploadResume (VStr "7") resume) details_mounted
           (mkExn TypeError "Failed to fetch")).
  reflexivity.
Defined.

(** X3: when the status is 2xx and the body does not parse, each operation
    throws the error of the parser, and this error is not written to the
    console: the promise of [response.json()] is returned, not awaited, so
    the [catch] block does not see its rejection. *)
Theorem api_unparsable_success_not_logged {S U} (apply : U -> S -> S) (E : env)
    (PROD : bool) (op : operation) (w : world S U) (r : response) (e : exn) :
  network E (fetches w) (request_of PROD op) = Normal r ->
  ok r = true ->
  json r = Throw e ->
  snd (run apply E (perform PROD op) w) = Throw e /\
  console (fst (run apply E (perform PROD op) w)) = console w.
Proof.
  intros Hnet Hok Hjson. rewrite run_perform, Hnet.
  unfold settled, tried. cbn [bind]. rewrite Hok. cbn [negb bind log_error].
  rewrite Hjson. split; reflexivity.
Qed.

(** X3 at [getRoles] against a server that answers 200 with a page of HTML. *)
Lemma api_unparsable_success_not_logged_witness :
  snd (run list_apply html_server (perform false GetRoles) list_mounted)
  = Throw (mkExn SyntaxError "Unexpected token < in JSON at position 0") /\
  console (fst (run list_apply html_server (perform false GetRoles) list_mounted))
  = console list_mounted.
Proof.
  apply (api_unparsable_success_not_logged list_apply html_server false GetRoles
           list_mounted
           (mkResponse 200
              (Throw (mkExn SyntaxError "Unexpected token < in JSON at position 0")))
           (mkExn SyntaxError "Unexpected token < in JSON at position 0"));
    reflexivity.
Defined.

(** X4: when the status is not 2xx, the error that the operation throws,
    whichever it is, has been written to the console once, under the label
    of the operation, and nothing else has. *)
Theorem api_failed_status_logged {S U} (apply : U -> S -> S) (E : env) (PROD : bool)
    (op : operation) (w : world S U) (r : response) :
  network E (fetches w) (request_of PROD op) = Normal r ->
  ok r = false ->
  exists e,
    snd (run apply E (perform PROD op) w) = Throw e /\
    console (fst (run apply E (perform PROD op) w)) =
      (console w ++ [(console_label op, e)])%list.
Proof.
  intros Hnet Hok. rewrite run_perform, Hnet.
  unfold settled, tried. cbn [bind]. rewrite Hok. cbn [negb].
  destruct (json r) as [body|e]; cbn [bind]; [|eexists; split; reflexivity].
  destruct (get body "detail") as [detail|e]; cbn [bind]; [|eexists; split; reflexivity].
  destruct (new_Error (or_else detail (VStr (default_message op)))) as [error|e];
    cbn [bind]; eexists; split; reflexivity.
Qed.

(** X4 at [createRole] against the server that answers 400. *)
Lemma api_failed_status_logged_witness :
  exists e,
    snd (run form_apply refusing_server
           (perform false (CreateRole (VStr "") (VStr "Sells things") VUndefined))
           form_mounted) = Throw e /\
    console (fst (run form_apply refusing_server
                    (perform false (CreateRole (VStr "") (VStr "Sells things") VUndefined))
                    form_mounted))
    = (console form_mounted ++
       [(console_label (CreateRole (VStr "") (VStr "Sells things") VUndefined), e)])%list.
Proof.
  apply (api_failed_status_logged form_apply refusing_server false
           (CreateRole (VStr "") (VStr "Sells things") VUndefined)
           form_mounted title_required);
    reflexivity.
Defined.

(** X5: whatever the outcome, a call of an operation sends exactly one
    request, its own (there is no retry), and touches neither the state of
    the view, nor the alerts, nor the navigation. *)
Theorem api_one_request {S U} (apply : U -> S -> S) (E : env) (PROD : bool)
    (op : operation) (w : world S U) :
  sent (fst (run apply E (perform PROD op) w)) = (sent w ++ [request_of PROD op])%list /\
  fetches (fst (run apply E (perform PROD op) w)) = Datatypes.S (fetches w) /\
  view (fst (run apply E (perform PROD op) w)) = view w /\
  applied (fst (run apply E (perform PROD op) w)) = applied w /\
  alerts (fst (run apply E (perform PROD op) w)) = alerts w /\
  navigations (fst (run apply E (perform PROD op) w)) = navigations w.
Proof.
  rewrite run_perform. cbn [fst].
  destruct (tried _ _); repeat split; reflexivity.
Qed.

(** X6: the address of every request starts with the base address followed
    by [/api/roles]: in the development build this is
    [http://localhost:8000/api/roles]; in the production build, where the
    base address is [/], it is [//api/roles], with two slashes. *)
Theorem api_request_address {S U} (apply : U -> S -> S) (E : env) (PROD : bool)
    (op : operation) (w : world S U) :
  exists req,
    sent (fst (run apply E (perform PROD op) w)) = (sent w ++ [req])%list /\
    prefix (if PROD then "//api/roles" else "http://localhost:8000/api/roles") (url req)
    = true.
Proof.
  exists (request_of PROD op). split.
  - rewrite run_perform. cbn [fst]. destruct (tried _ _); reflexivity.
  - destruct op, PROD; reflexivity.
Qed.

(* ===================================================================== *)
(** * 14. Further properties of the view handlers                         *)
(* ===================================================================== *)

(** ** The run of an operation from a given page *)

Section OperationRun.

Context {S U : Type}.
Variable apply : U -> S -> S.
Variable E : env.
Variable PROD : bool.

Lemma run_perform_world (op : operation) (v : S) (m : bool) (n : nat)
    (snt : list request) (con : list (string * exn)) (al nav : list string)
    (pr : nat) (ap : list (nat * U)) :
  run apply E (perform PROD op) (mkWorld v m n snt con al nav pr ap) =
  (mkWorld v (m && negb (leaves E n)) (Datatypes.S n) (snt ++ [request_of PROD op])
     (con ++ logged (console_label op)
               (tried (default_message op) (network E n (request_of PROD op))))
     al nav pr ap,
   outcome E PROD n op).
Proof.
  rewrite run_perform. unfold outcome, issue. cbn [fetches view mounted sent console
                                                   alerts navigations prevented applied].
  destruct (tried _ _); cbn [log_error logged]; [now rewrite app_nil_r | reflexivity].
Qed.

(** The promise of an operation settles as [outcome] says. *)
Lemma outcome_run (op : operation) (w : world S U) :
  snd (run apply E (perform PROD op) w) = outcome E PROD (fetches w) op.
Proof. now rewrite run_perform. Qed.

End OperationRun.

(** ** RoleCreationForm.jsx *)




(** X8: every run of [handleSubmit], whatever the server does and whether
    or not the form is still mounted, cancels the default action of the
    event once and sends exactly one request: a POST to [/api/roles] whose
    form holds the title and the description of the form and, as
    [old_rubric], the rubric template of the file. *)
Theorem handleSubmit_request (E : env) (PROD : bool) (w : world form_state form_update) :
  sent (fst (run form_apply E (handleSubmit PROD (view w)) w)) =
    (sent w ++
     [ mkRequest (BASE_URL PROD ++ "/api/roles") "POST"
         (Some [ ("title", FText (title (view w)));
                 ("description", FText (description (view w)));
                 ("old_rubric", FText oldRubricTemplate) ]) ])%list /\
  prevented (fst (run form_apply E (handleSubmit PROD (view w)) w)) =
    Datatypes.S (prevented w).
Proof.
  destruct w as [v m n snt con al nav pr ap]. cbn [view sent prevented].
  unfold handleSubmit.
  set (op := CreateRole (VStr (title v)) (VStr (description v)) (VStr oldRubricTemplate)).
  change (createRole PROD (VStr (title v)) (VStr (description v)) (VStr oldRubricTemplate))
    with (@perform PROD form_update op).
  pose proof (run_perform_world form_apply E PROD op) as Hrun.
  assert (Hreq : request_of PROD op =
                 mkRequest (BASE_URL PROD ++ "/api/roles") "POST"
                   (Some [ ("title", FText (title v));
                           ("description", FText (description v));
                           ("old_rubric", FText oldRubricTemplate) ]))
    by reflexivity.
  rewrite <- Hreq. clear Hreq.
  set (req := request_of PROD op) in *.
  set (c := @perform PROD form_update op) in *. clearbody c. clearbody req.
  cbn [trigger pbind run handle].
  destruct m; page; rewrite run_finally, run_try_catch, run_pbind, Hrun;
    destruct (leaves E n); cbn [negb andb];
    destruct (outcome E PROD n op);
    cbn [trigger run handle]; page; split; reflexivity.
Qed.

(** ** RoleDetails.jsx *)

(** The run of [fetchData] on a mounted view that stays mounted while the
    role is requested: when that request fails, and when it succeeds and
    the view stays mounted while the results are requested. *)
Lemma fetchData_run (E : env) (PROD : bool) (id : value) (v : details_state) (n : nat)
    (snt : list request) (con : list (string * exn)) (al nav : list string)
    (pr : nat) (ap : list (nat * details_update)) :
  leaves E n = false ->
  (forall e,
      outcome E PROD n (GetRoleDetails id) = Throw e ->
      exists con' ap',
        run details_apply E (fetchData PROD id) (mkWorld v true n snt con al nav pr ap) =
        (mkWorld (mkDetails (role v) (results v) false (Some (message e)) (isUploading v))
           true (Datatypes.S n) (snt ++ [request_of PROD (GetRoleDetails id)])
           con' al nav pr ap',
         Normal tt)) /\
  (forall roleData,
      outcome E PROD n (GetRoleDetails id) = Normal roleData ->
      leaves E (Datatypes.S n) = false ->
      exists con' ap',
        run details_apply E (fetchData PROD id) (mkWorld v true n snt con al nav pr ap) =
        (mkWorld
           match outcome E PROD (Datatypes.S n) (GetRoleResults id) with
           | Normal resultsData => mkDetails roleData resultsData false None (isUploading v)
           | Throw e =>
               mkDetails roleData (results v) false (Some (message e)) (isUploading v)
           end
           true (Datatypes.S (Datatypes.S n))
           ((snt ++ [request_of PROD (GetRoleDetails id)]) ++
            [request_of PROD (GetRoleResults id)])
           con' al nav pr ap',
         Normal tt)).
Proof.
  intros Hl. unfold fetchData.
  change (getRoleDetails PROD id) with (@perform PROD details_update (GetRoleDetails id)).
  change (getRoleResults PROD id) with (@perform PROD details_update (GetRoleResults id)).
  pose proof (run_perform_world details_apply E PROD (GetRoleDetails id)) as Hrun1.
  pose proof (run_perform_world details_apply E PROD (GetRoleResults id)) as Hrun2.
  set (c1 := @perform PROD details_update (GetRoleDetails id)) in *.
  set (c2 := @perform PROD details_update (GetRoleResults id)) in *.
  clearbody c1 c2.
  cbn [trigger pbind run handle]. page. cbn [details_apply role results loading error isUploading].
  rewrite run_finally, run_try_catch, run_pbind, Hrun1. rewrite Hl. cbn [negb andb].
  split.
  - intros e ->. cbn [trigger run handle]. page.
    cbn [details_apply role results loading error isUploading].
    eexists _, _. reflexivity.
  - intros roleData -> Hl2. cbn [run handle]. page.
    cbn [details_apply role results loading error isUploading].
    rewrite run_pbind, Hrun2. rewrite Hl2. cbn [negb andb].
    destruct (outcome E PROD (Datatypes.S n) (GetRoleResults id)) as [resultsData|e];
      cbn [trigger run handle]; page;
      cbn [details_apply role results loading error isUploading];
      eexists _, _; reflexivity.
Qed.

(** X9: on a mounted detail view that stays mounted, when both requests of
    [fetchData] succeed, the role and the results of the view are the two
    bodies received, the error is cleared, the loading flag is down, and
    the two requests sent are the one for the role and then the one for
    its results. *)
Theorem fetchData_success (E : env) (PROD : bool) (id : value)
    (w : world details_state details_update) (roleData resultsData : value) :
  mounted w = true ->
  leaves E (fetches w) = false ->
  leaves E (Datatypes.S (fetches w)) = false ->
  outcome E PROD (fetches w) (GetRoleDetails id) = Normal roleData ->
  outcome E PROD (Datatypes.S (fetches w)) (GetRoleResults id) = Normal resultsData ->
  view (fst (run details_apply E (fetchData PROD id) w)) =
    mkDetails roleData resultsData false None (isUploading (view w)) /\
  sent (fst (run details_apply E (fetchData PROD id) w)) =
    (sent w ++ [ request_of PROD (GetRoleDetails id);
                 request_of PROD (GetRoleResults id) ])%list.
Proof.
  destruct w as [v m n snt con al nav pr ap]. cbn [mounted fetches view sent].
  intros -> Hl1 Hl2 H1 H2.
  destruct (fetchData_run E PROD id v n snt con al nav pr ap Hl1) as [_ Hok].
  destruct (Hok roleData H1 Hl2) as (con' & ap' & ->).
  rewrite H2. cbn [fst view sent]. rewrite <- app_assoc. split; reflexivity.
Qed.

(** X9 at the server that knows the role and its two results. *)
Lemma fetchData_success_witness :
  view (fst (run details_apply details_server (fetchData false (VStr "7")) details_mounted)) =
    mkDetails role_seven screened false None (isUploading (view details_mounted)) /\
  sent (fst (run details_apply details_server (fetchData false (VStr "7")) details_mounted)) =
    (sent details_mounted ++
     [ request_of false (GetRoleDetails (VStr "7"));
       request_of false (GetRoleResults (VStr "7")) ])%list.
Proof.
  apply (fetchData_success details_server false (VStr "7") details_mounted
           role_seven screened);
    reflexivity.
Defined.

(** X10: on a mounted detail view that stays mounted, when the request for
    the role fails, [fetchData] never asks for the results: one request
    is sent, the role and the results of the view are left as they were,
    the error is the message of the failure and the loading flag is down. *)
Theorem fetchData_role_failure (E : env) (PROD : bool) (id : value)
    (w : world details_state details_update) (e : exn) :
  mounted w = true ->
  leaves E (fetches w) = false ->
  outcome E PROD (fetches w) (GetRoleDetails id) = Throw e ->
  view (fst (run details_apply E (fetchData PROD id) w)) =
    mkDetails (role (view w)) (results (view w)) false (Some (message e))
      (isUploading (view w)) /\
  sent (fst (run details_apply E (fetchData PROD id) w)) =
    (sent w ++ [request_of PROD (GetRoleDetails id)])%list.
Proof.
  destruct w as [v m n snt con al nav pr ap]. cbn [mounted fetches view sent].
  intros -> Hl1 H1.
  destruct (fetchData_run E PROD id v n snt con al nav pr ap Hl1) as [Hfail _].
  destruct (Hfail e H1) as (con' & ap' & ->).
  split; reflexivity.
Qed.

(** X10 while the network is down. *)
Lemma fetchData_role_failure_witness :
  view (fst (run details_apply offline (fetchData false (VStr "7")) details_mounted)) =
    mkDetails (role (view details_mounted)) (results (view details_mounted)) false
      (Some (message (mkExn TypeError "Failed to fetch")))
      (isUploading (view details_mounted)) /\
  sent (fst (run details_apply offline (fetchData false (VStr "7")) details_mounted)) =
    (sent details_mounted ++ [request_of false (GetRoleDetails (VStr "7"))])%list.
Proof.
  apply (fetchData_role_failure offline false (VStr "7") details_mounted
           (mkExn TypeError "Failed to fetch"));
    reflexivity.
Defined.

(** X11: on a mounted detail view that stays mounted, when the role is
    received and the request for its results fails, the view holds the new
    role together with the results it had before, and the error is the
    message of the failure; the loading flag is down. *)
Theorem fetchData_results_failure (E : env) (PROD : bool) (id : value)
    (w : world details_state details_update) (roleData : value) (e : exn) :
  mounted w = true ->
  leaves E (fetches w) = false ->
  leaves E (Datatypes.S (fetches w)) = false ->
  outcome E PROD (fetches w) (GetRoleDetails id) = Normal roleData ->
  outcome E PROD (Datatypes.S (fetches w)) (GetRoleResults id) = Throw e ->
  view (fst (run details_apply E (fetchData PROD id) w)) =
    mkDetails roleData (results (view w)) false (Some (message e)) (isUploading (view w)).
Proof.
  destruct w as [v m n snt con al nav pr ap]. cbn [mounted fetches view sent].
  intros -> Hl1 Hl2 H1 H2.
  destruct (fetchData_run E PROD id v n snt con al nav pr ap Hl1) as [_ Hok].
  destruct (Hok roleData H1 Hl2) as (con' & ap' & ->).
  rewrite H2. reflexivity.
Qed.

(** X11 at the server on which the results cannot be read. *)
Lemma fetchData_results_failure_witness :
  view (fst (run details_apply half_server (fetchData false (VStr "7")) details_mounted)) =
    mkDetails role_seven (results (view details_mounted)) false
      (Some (message (mkExn Error "AI service unavailable")))
      (isUploading (view details_mounted)).
Proof.
  apply (fetchData_results_failure half_server false (VStr "7") details_mounted
           role_seven (mkExn Error "AI service unavailable"));
    reflexivity.
Defined.

(** A call that is not awaited does what the function called does and
    never throws. *)
Lemma run_call_async {S U A} (apply : U -> S -> S) (E : env) (p : Proc U A)
    (w : world S U) :
  run apply E (call_async p) w = (fst (run apply E p w), Normal tt).
Proof.
  unfold call_async. rewrite run_try_catch, run_pbind.
  destruct (run apply E p w) as [w1 [a|e]]; reflexivity.
Qed.

(** X12: the render of the detail page once the fetch started by its effect
    is over, when the user has stayed.  It is the error message when a
    request failed with a message that is not empty.  Otherwise it is the
    notice that the role was not found when the body received for the role
    is falsy ([null], for one), and else the page of the role, with what
    [ResultsTable] returns for the body received for the results (for the
    initial empty list, when the request for the results failed with an
    empty message); when [ResultsTable] throws on that body, the render
    throws.  It is never the loading notice. *)
Theorem RoleDetails_page_after_mount (E : env) (PROD : bool) (id : value) :
  leaves E 0 = false ->
  leaves E 1 = false ->
  RoleDetails_render
    (view (fst (run details_apply E (RoleDetails_effect PROD id) details_mounted))) =
  match outcome E PROD 0 (GetRoleDetails id) with
  | Throw e =>
      match shown (Some (message e)) with
      | Some m => Normal (DetailsError m)
      | None => Normal RoleNotFound
      end
  | Normal roleData =>
      match outcome E PROD 1 (GetRoleResults id) with
      | Throw e =>
          match shown (Some (message e)) with
          | Some m => Normal (DetailsError m)
          | None =>
              if truthy roleData
              then Normal (RolePage roleData false NoDataMessage)
              else Normal RoleNotFound
          end
      | Normal resultsData =>
          if truthy roleData
          then table <- ResultsTable resultsData ;; Normal (RolePage roleData false table)
          else Normal RoleNotFound
      end
  end.
Proof.
  intros Hl0 Hl1. unfold RoleDetails_effect. rewrite run_call_async. cbn [fst].
  unfold details_mounted, mount.
  destruct (fetchData_run E PROD id details_initial 0 [] [] [] [] 0 [] Hl0)
    as [Hfail Hok].
  destruct (outcome E PROD 0 (GetRoleDetails id)) as [roleData|e].
  - destruct (Hok roleData eq_refl Hl1) as (con' & ap' & ->). cbn [fst view].
    destruct (outcome E PROD 1 (GetRoleResults id)) as [resultsData|e];
      unfold RoleDetails_render; cbn [loading error role results isUploading shown];
      [|destruct (String.eqb (message e) "")];
      destruct (truthy roleData); reflexivity.
  - destruct (Hfail e eq_refl) as (con' & ap' & ->). cbn [fst view].
    unfold RoleDetails_render; cbn [loading error role results isUploading shown].
    destruct (String.eqb (message e) ""); reflexivity.
Qed.

(** X12 at the server that knows the role and its two results. *)
Lemma RoleDetails_page_after_mount_witness :
  RoleDetails_render
    (view (fst (run details_apply details_server (RoleDetails_effect false (VStr "7"))
                  details_mounted))) =
  match outcome details_server false 0 (GetRoleDetails (VStr "7")) with
  | Throw e =>
      match shown (Some (message e)) with
      | Some m => Normal (DetailsError m)
      | None => Normal RoleNotFound
      end
  | Normal roleData =>
      match outcome details_server false 1 (GetRoleResults (VStr "7")) with
      | Throw e =>
          match shown (Some (message e)) with
          | Some m => Normal (DetailsError m)
          | None =>
              if truthy roleData
              then Normal (RolePage roleData false NoDataMessage)
              else Normal RoleNotFound
          end
      | Normal resultsData =>
          if truthy roleData
          then table <- ResultsTable resultsData ;; Normal (RolePage roleData false table)
          else Normal RoleNotFound
      end
  end.
Proof.
  apply (RoleDetails_page_after_mount details_server false (VStr "7")); reflexivity.
Defined.

Lemma dispatch_mounted {S U} (apply : U -> S -> S) (u : U) (v : S) (n : nat)
    (snt : list request) (con : list (string * exn)) (al nav : list string)
    (pr : nat) (ap : list (nat * U)) :
  dispatch apply u (mkWorld v true n snt con al nav pr ap) =
  mkWorld (apply u v) true n snt con al nav pr (ap ++ [(n, u)]).
Proof. reflexivity. Qed.

(** The run of [handleResumeUpload] on a mounted view that stays mounted
    while the file is uploaded. *)
Lemma handleResumeUpload_run (E : env) (PROD : bool) (id : value) (file : File)
    (v : details_state) (n : nat) (snt : list request) (con : list (string * exn))
    (al nav : list string) (pr : nat) (ap : list (nat * details_update)) :
  leaves E n = false ->
  (forall e,
      outcome E PROD n (UploadResume id file) = Throw e ->
      exists con' ap',
        run details_apply E (handleResumeUpload PROD id file)
          (mkWorld v true n snt con al nav pr ap) =
        (mkWorld (mkDetails (role v) (results v) (loading v) (Some (message e)) false)
           true (Datatypes.S n) (snt ++ [request_of PROD (UploadResume id file)])
           con' al nav pr ap',
         Normal tt)) /\
  (forall r,
      outcome E PROD n (UploadResume id file) = Normal r ->
      exists con' ap',
        run details_apply E (handleResumeUpload PROD id file)
          (mkWorld v true n snt con al nav pr ap) =
        (dispatch details_apply (setIsUploading false)
           (fst (run details_apply E (fetchData PROD id)
                   (mkWorld (mkDetails (role v) (results v) (loading v) None true)
                      true (Datatypes.S n)
                      (snt ++ [request_of PROD (UploadResume id file)])
                      con' (al ++ ["Resume uploaded and screened successfully!"])
                      nav pr ap'))),
         Normal tt)).
Proof.
  intros Hl. unfold handleResumeUpload.
  change (uploadResume PROD id file)
    with (@perform PROD details_update (UploadResume id file)).
  pose proof (run_perform_world details_apply E PROD (UploadResume id file)) as Hrun.
  pose proof (fetchData_fulfilled E PROD id) as Hfd.
  set (c := @perform PROD details_update (UploadResume id file)) in *.
  set (fd := fetchData PROD id) in *.
  clearbody c fd.
  cbn [trigger pbind run handle]. rewrite !dispatch_mounted.
  cbn [details_apply role results loading error isUploading].
  rewrite run_finally, run_try_catch, run_pbind, Hrun. rewrite Hl. cbn [negb andb].
  split.
  - intros e ->. cbn [trigger run handle]. rewrite !dispatch_mounted.
    cbn [details_apply role results loading error isUploading fst snd].
    eexists _, _. reflexivity.
  - intros r ->. cbn [run handle].
    cbn [mounted fetches view sent console alerts navigations prevented applied].
    match goal with
    | |- context [run details_apply E fd ?w3] =>
        specialize (Hfd w3); destruct (run details_apply E fd w3) as [w4 c4] eqn:Hw4
    end.
    cbn [snd] in Hfd. subst c4. cbn [trigger run handle fst].
    eexists _, _. rewrite Hw4. reflexivity.
Qed.

(** X13: on a mounted detail view that stays mounted, when the upload
    fails, [handleResumeUpload] shows no success alert and does not fetch
    the data again (the upload is the only request sent); the error is
    the message of the failure, the uploading flag is down, and the role,
    the results and the loading flag are as they were. *)
Theorem handleResumeUpload_failure (E : env) (PROD : bool) (id : value) (file : File)
    (w : world details_state details_update) (e : exn) :
  mounted w = true ->
  leaves E (fetches w) = false ->
  outcome E PROD (fetches w) (UploadResume id file) = Throw e ->
  view (fst (run details_apply E (handleResumeUpload PROD id file) w)) =
    mkDetails (role (view w)) (results (view w)) (loading (view w))
      (Some (message e)) false /\
  sent (fst (run details_apply E (handleResumeUpload PROD id file) w)) =
    (sent w ++ [request_of PROD (UploadResume id file)])%list /\
  alerts (fst (run details_apply E (handleResumeUpload PROD id file) w)) = alerts w.
Proof.
  destruct w as [v m n snt con al nav pr ap]. cbn [mounted fetches view sent alerts].
  intros -> Hl H.
  destruct (handleResumeUpload_run E PROD id file v n snt con al nav pr ap Hl)
    as [Hfail _].
  destruct (Hfail e H) as (con' & ap' & ->).
  repeat split; reflexivity.
Qed.

(** X13 at the server that refuses every upload. *)
Lemma handleResumeUpload_failure_witness :
  view (fst (run details_apply details_server (handleResumeUpload false (VStr "7") resume)
               details_mounted)) =
    mkDetails (role (view details_mounted)) (results (view details_mounted))
      (loading (view details_mounted))
      (Some (message (mkExn Error "AI service unavailable"))) false /\
  sent (fst (run details_apply details_server (handleResumeUpload false (VStr "7") resume)
               details_mounted)) =
    (sent details_mounted ++ [request_of false (UploadResume (VStr "7") resume)])%list /\
  alerts (fst (run details_apply details_server (handleResumeUpload false (VStr "7") resume)
                 details_mounted)) = alerts details_mounted.
Proof.
  apply (handleResumeUpload_failure details_server false (VStr "7") resume details_mounted
           (mkExn Error "AI service unavailable"));
    reflexivity.
Defined.

(** X14: on a mounted detail view that stays mounted, when the upload and
    the two requests that follow succeed, [handleResumeUpload] shows the
    success alert once, sends three requests in this order (the upload,
    the role, the results), and leaves the view with the role and the
    results received, no error, and the loading and uploading flags
    down. *)
Theorem handleResumeUpload_success (E : env) (PROD : bool) (id : value) (file : File)
    (w : world details_state details_update) (r roleData resultsData : value) :
  mounted w = true ->
  leaves E (fetches w) = false ->
  leaves E (Datatypes.S (fetches w)) = false ->
  leaves E (Datatypes.S (Datatypes.S (fetches w))) = false ->
  outcome E PROD (fetches w) (UploadResume id file) = Normal r ->
  outcome E PROD (Datatypes.S (fetches w)) (GetRoleDetails id) = Normal roleData ->
  outcome E PROD (Datatypes.S (Datatypes.S (fetches w))) (GetRoleResults id)
  = Normal resultsData ->
  view (fst (run details_apply E (handleResumeUpload PROD id file) w)) =
    mkDetails roleData resultsData false None false /\
  sent (fst (run details_apply E (handleResumeUpload PROD id file) w)) =
    (sent w ++ [ request_of PROD (UploadResume id file);
                 request_of PROD (GetRoleDetails id);
                 request_of PROD (GetRoleResults id) ])%list /\
  alerts (fst (run details_apply E (handleResumeUpload PROD id file) w)) =
    (alerts w ++ ["Resume uploaded and screened successfully!"])%list.
Proof.
  destruct w as [v m n snt con al nav pr ap]. cbn [mounted fetches view sent alerts].
  intros -> Hl0 Hl1 Hl2 H0 H1 H2.
  destruct (handleResumeUpload_run E PROD id file v n snt con al nav pr ap Hl0)
    as [_ Hok].
  destruct (Hok r H0) as (con' & ap' & ->).
  match goal with
  | |- context [run details_apply E (fetchData PROD id)
                  (mkWorld ?v1 true ?n1 ?s1 ?c1 ?a1 ?nv1 ?p1 ?ap1)] =>
      destruct (fetchData_run E PROD id v1 n1 s1 c1 a1 nv1 p1 ap1 Hl1) as [_ Hok']
  end.
  destruct (Hok' roleData H1 Hl2) as (con'' & ap'' & ->).
  rewrite H2. cbn [fst]. page. cbn [details_apply role results loading error isUploading].
  rewrite <- !app_assoc. repeat split; reflexivity.
Qed.

(** X14 at the server that accepts every upload. *)
Lemma handleResumeUpload_success_witness :
  view (fst (run details_apply screening_server
               (handleResumeUpload false (VStr "7") resume) details_mounted)) =
    mkDetails role_seven screened false None false /\
  sent (fst (run details_apply screening_server
               (handleResumeUpload false (VStr "7") resume) details_mounted)) =
    (sent details_mounted ++
     [ request_of false (UploadResume (VStr "7") resume);
       request_of false (GetRoleDetails (VStr "7"));
       request_of false (GetRoleResults (VStr "7")) ])%list /\
  alerts (fst (run details_apply screening_server
                 (handleResumeUpload false (VStr "7") resume) details_mounted)) =
    (alerts details_mounted ++ ["Resume uploaded and screened successfully!"])%list.
Proof.
  apply (handleResumeUpload_success screening_server false (VStr "7") resume
           details_mounted alice role_seven screened);
    reflexivity.
Defined.

(** X15: on a mounted detail view that stays mounted, when the upload
    succeeds and the request for the role that follows fails, the user has
    seen the success alert and the view then carries the message of that
    failure as its error, with the role and the results it had before the
    upload and both flags down. *)
Theorem handleResumeUpload_refresh_failure (E : env) (PROD : bool) (id : value)
    (file : File) (w : world details_state details_update) (r : value) (e : exn) :
  mounted w = true ->
  leaves E (fetches w) = false ->
  leaves E (Datatypes.S (fetches w)) = false ->
  outcome E PROD (fetches w) (UploadResume id file) = Normal r ->
  outcome E PROD (Datatypes.S (fetches w)) (GetRoleDetails id) = Throw e ->
  view (fst (run details_apply E (handleResumeUpload PROD id file) w)) =
    mkDetails (role (view w)) (results (view w)) false (Some (message e)) false /\
  alerts (fst (run details_apply E (handleResumeUpload PROD id file) w)) =
    (alerts w ++ ["Resume uploaded and screened successfully!"])%list.
Proof.
  destruct w as [v m n snt con al nav pr ap]. cbn [mounted fetches view sent alerts].
  intros -> Hl0 Hl1 H0 H1.
  destruct (handleResumeUpload_run E PROD id file v n snt con al nav pr ap Hl0)
    as [_ Hok].
  destruct (Hok r H0) as (con' & ap' & ->).
  match goal with
  | |- context [run details_apply E (fetchData PROD id)
                  (mkWorld ?v1 true ?n1 ?s1 ?c1 ?a1 ?nv1 ?p1 ?ap1)] =>
      destruct (fetchData_run E PROD id v1 n1 s1 c1 a1 nv1 p1 ap1 Hl1) as [Hfail _]
  end.
  destruct (Hfail e H1) as (con'' & ap'' & ->).
  cbn [fst]. rewrite dispatch_mounted.
  cbn [details_apply role results loading error isUploading view alerts].
  split; reflexivity.
Qed.

(** X15 at a server that accepts the upload and then fails. *)
Lemma handleResumeUpload_refresh_failure_witness :
  view (fst (run details_apply half_server (handleResumeUpload false (VStr "7") resume)
               details_mounted)) =
    mkDetails (role (view details_mounted)) (results (view details_mounted)) false
      (Some (message (mkExn Error "AI service unavailable"))) false /\
  alerts (fst (run details_apply half_server (handleResumeUpload false (VStr "7") resume)
                 details_mounted)) =
    (alerts details_mounted ++ ["Resume uploaded and screened successfully!"])%list.
Proof.
  apply (handleResumeUpload_refresh_failure half_server false (VStr "7") resume
           details_mounted role_seven (mkExn Error "AI service unavailable"));
    reflexivity.
Defined.

(** X16: no handler of the three pages ever rejects: whatever the network
    does, and whether or not the component is still mounted, the promises
    of [handleSubmit], [fetchData], [handleResumeUpload] and [fetchRoles]
    are fulfilled, so that dropping them, as their callers do, loses no
    error. *)
Theorem handlers_never_reject (E : env) (PROD : bool) (id : value) (file : File)
    (wf : world form_state form_update) (wd : world details_state details_update)
    (wl : world list_state list_update) :
  snd (run form_apply E (handleSubmit PROD (view wf)) wf) = Normal tt /\
  snd (run details_apply E (fetchData PROD id) wd) = Normal tt /\
  snd (run details_apply E (handleResumeUpload PROD id file) wd) = Normal tt /\
  snd (run list_apply E (fetchRoles PROD) wl) = Normal tt.
Proof.
  repeat split.
  - unfold handleSubmit. cbn [trigger pbind run handle]. apply run_guarded.
  - unfold fetchData. cbn [trigger pbind run handle]. apply run_guarded.
  - unfold handleResumeUpload. cbn [trigger pbind run handle]. apply run_guarded.
  - unfold fetchRoles. apply run_guarded.
Qed.

(** ** ResumeUploader.jsx *)

(** X17: submitting the form of the uploader with a file selected does,
    after the default action is cancelled, exactly what
    [handleResumeUpload] does with that file, and the promise that is
    dropped is a fulfilled one; with no file selected it only cancels the
    default action: nothing is sent and the handler of the parent is not
    called, whatever that handler is. *)
Theorem uploader_submit (E : env) (PROD : bool) (id : value) (file : File)
    (onUpload : File -> Proc details_update unit)
    (w : world details_state details_update) :
  run details_apply E
    (ResumeUploader.handleSubmit (Some file) (handleResumeUpload PROD id)) w =
  (fst (run details_apply E (handleResumeUpload PROD id file)
          (fst (run details_apply E (trigger PreventDefault) w))),
   Normal tt) /\
  snd (run details_apply E (handleResumeUpload PROD id file)
         (fst (run details_apply E (trigger PreventDefault) w))) = Normal tt /\
  run details_apply E (ResumeUploader.handleSubmit None onUpload) w =
  run details_apply E (trigger PreventDefault) w.
Proof.
  repeat split.
  - unfold ResumeUploader.handleSubmit. rewrite run_pbind.
    cbn [trigger run handle fst]. apply run_call_async.
  - apply handleResumeUpload_fulfilled.
Qed.

(** ** RoleList.jsx *)

(** The run of [fetchRoles] on a mounted list that stays mounted. *)
Lemma fetchRoles_run (E : env) (PROD : bool) (v : list_state) (n : nat)
    (snt : list request) (con : list (string * exn)) (al nav : list string)
    (pr : nat) (ap : list (nat * list_update)) :
  leaves E n = false ->
  exists con' ap',
    run list_apply E (fetchRoles PROD) (mkWorld v true n snt con al nav pr ap) =
    (mkWorld
       match outcome E PROD n GetRoles with
       | Normal data => mkList data false (list_error v)
       | Throw e => mkList (roles v) false (Some (message e))
       end
       true (Datatypes.S n) (snt ++ [request_of PROD GetRoles]) con' al nav pr ap',
     Normal tt).
Proof.
  intros Hl. unfold fetchRoles.
  change (getRoles PROD) with (@perform PROD list_update GetRoles).
  pose proof (run_perform_world list_apply E PROD GetRoles) as Hrun.
  set (c := @perform PROD list_update GetRoles) in *. clearbody c.
  rewrite run_finally, run_try_catch, run_pbind, Hrun. rewrite Hl. cbn [negb andb].
  destruct (outcome E PROD n GetRoles) as [data|e];
    cbn [trigger run handle]; rewrite !dispatch_mounted;
    cbn [list_apply roles list_loading list_error fst snd];
    eexists _, _; reflexivity.
Qed.

(** X18: on a mounted list that stays mounted, [fetchRoles] sends the one
    request for the roles and lowers the loading flag; when the request
    succeeds the roles of the view are the body received (the error state
    is not touched); when it fails the error is the message of the
    failure and the roles are as they were. *)
Theorem fetchRoles_outcome (E : env) (PROD : bool) (w : world list_state list_update) :
  mounted w = true ->
  leaves E (fetches w) = false ->
  view (fst (run list_apply E (fetchRoles PROD) w)) =
    match outcome E PROD (fetches w) GetRoles with
    | Normal data => mkList data false (list_error (view w))
    | Throw e => mkList (roles (view w)) false (Some (message e))
    end /\
  sent (fst (run list_apply E (fetchRoles PROD) w)) =
    (sent w ++ [request_of PROD GetRoles])%list.
Proof.
  destruct w as [v m n snt con al nav pr ap]. cbn [mounted fetches view sent].
  intros -> Hl.
  destruct (fetchRoles_run E PROD v n snt con al nav pr ap Hl) as (con' & ap' & ->).
  split; reflexivity.
Qed.

(** X18 while the network is down. *)
Lemma fetchRoles_outcome_witness :
  view (fst (run list_apply offline (fetchRoles false) list_mounted)) =
    match outcome offline false (fetches list_mounted) GetRoles with
    | Normal data => mkList data false (list_error (view list_mounted))
    | Throw e => mkList (roles (view list_mounted)) false (Some (message e))
    end /\
  sent (fst (run list_apply offline (fetchRoles false) list_mounted)) =
    (sent list_mounted ++ [request_of false GetRoles])%list.
Proof.
  apply (fetchRoles_outcome offline false list_mounted); reflexivity.
Defined.

(** X19: what the list page shows once the fetch started by its effect is
    over, when the user has stayed: the error message when the request
    failed with a message that is not empty; the notice that no role is
    saved when it failed with an empty message; and when it succeeded,
    what the grid makes of the body received. *)
Theorem RoleList_page_after_mount (E : env) (PROD : bool) :
  leaves E 0 = false ->
  RoleList_render (view (fst (run list_apply E (RoleList_effect PROD) list_mounted))) =
  match outcome E PROD 0 GetRoles with
  | Throw e =>
      match shown (Some (message e)) with
      | Some m => Normal (ListError m)
      | None => Normal NoRoles
      end
  | Normal data => role_grid data
  end.
Proof.
  intros Hl. unfold RoleList_effect. rewrite run_call_async. cbn [fst].
  unfold list_mounted, mount.
  destruct (fetchRoles_run E PROD list_initial 0 [] [] [] [] 0 [] Hl) as (con' & ap' & ->).
  cbn [fst view].
  destruct (outcome E PROD 0 GetRoles) as [data|e];
    unfold RoleList_render; cbn [list_loading list_error roles list_initial shown].
  - reflexivity.
  - destruct (String.eqb (message e) ""); reflexivity.
Qed.

(** X19 while the network is down. *)
Lemma RoleList_page_after_mount_witness :
  RoleList_render (view (fst (run list_apply offline (RoleList_effect false) list_mounted))) =
  match outcome offline false 0 GetRoles with
  | Throw e =>
      match shown (Some (message e)) with
      | Some m => Normal (ListError m)
      | None => Normal NoRoles
      end
  | Normal data => role_grid data
  end.
Proof.
  apply (RoleList_page_after_mount offline false); reflexivity.
Defined.



(* ===================================================================== *)
(** * 15. Further properties of the results table                         *)
(* ===================================================================== *)

(** [?.] on the details of a result reads what [.] reads on the details
    defaulted to the empty object. *)
Lemma get_optional_or_else (d : value) (k : string) :
  get_optional d k = get (or_else d (VObj [])) k.
Proof.
  destruct d; try reflexivity.
  - destruct b; reflexivity.
  - unfold or_else. cbn [truthy get_optional]. destruct (negb (n =? 0)%Z); reflexivity.
  - unfold or_else. cbn [truthy get_optional]. destruct (negb (s =? "")); reflexivity.
Qed.

Lemma detail_details (result : value) (k : string) :
  detail result k = bind (details result) (fun d => get d k).
Proof.
  unfold detail, details.
  destruct (get result "evaluation_details") as [d|e]; cbn [bind]; [|reflexivity].
  apply get_optional_or_else.
Qed.

Lemma detailsText_returns_shape (result : value) :
  (exists text, detailsText result = Normal text) <-> Result_shape result.
Proof.
  unfold detailsText. rewrite !detail_details. split.
  - intros [text H].
    destruct (details result) as [d|e] eqn:Hd; cbn [bind] in H; [|discriminate].
    pose proof (details_truthy _ _ Hd) as Ht.
    destruct (get_truthy d "justification" Ht) as [ju Hju].
    destruct (get_truthy d "competency_scores" Ht) as [cs Hcs].
    destruct (get_truthy d "cited_evidence" Ht) as [ce Hce].
    rewrite Hju, Hcs, Hce in H. cbn [bind] in H.
    exists d, ce. repeat split; try assumption.
    unfold evidence_joinable.
    destruct ce; try reflexivity;
      (destruct (truthy _) eqn:Hc; [cbn [bind] in H; discriminate | reflexivity]).
  - intros (d & ce & Hd & Hce & Hj). rewrite Hd. cbn [bind].
    pose proof (details_truthy _ _ Hd) as Ht.
    destruct (get_truthy d "justification" Ht) as [ju ->].
    destruct (get_truthy d "competency_scores" Ht) as [cs ->].
    rewrite Hce. cbn [bind].
    unfold evidence_joinable in Hj.
    destruct ce; try (apply negb_true_iff in Hj; rewrite Hj); cbn [truthy bind]; eauto.
Qed.

(** Outside the right shape neither the row nor the text of the details
    can be built. *)
Lemma row_throws_outside_shape (result : value) :
  ~ Result_shape result -> exists e, row result = Throw e.
Proof.
  intros Hn. destruct (row result) as [line|e] eqn:Hr; [|eauto].
  exfalso. apply Hn. apply row_returns_iff. eauto.
Qed.

Lemma rows_throw_on_member (result : value) (results : list value) :
  (exists e, row result = Throw e) ->
  In result results ->
  exists e, rows results = Throw e.
Proof.
  intros [e He]. unfold rows.
  induction results as [|r t IH]; intros Hin; [contradiction|].
  cbn [mapM]. destruct Hin as [->|Hin].
  - rewrite He. cbn [bind]. eauto.
  - destruct (row r) as [l|e']; cbn [bind]; [|eauto].
    destruct (IH Hin) as [e' ->]. cbn [bind]. eauto.
Qed.

(** X21: a result that is [null] or [undefined], or whose [cited_evidence]
    is truthy and not an array, breaks the details button and the export
    alike: the text of its details cannot be built, its row cannot either,
    and [downloadCsv] throws on every sequence of results that holds it,
    whatever the other results are. *)
Theorem misshapen_result_breaks_both (result : value) :
  ~ Result_shape result ->
  (exists e, detailsText result = Throw e) /\
  (exists e, row result = Throw e) /\
  (forall results, In result results -> exists e, downloadCsv results = Throw e).
Proof.
  intros Hn. repeat split.
  - destruct (detailsText result) as [text|e] eqn:Hd; [|eauto].
    exfalso. apply Hn. apply detailsText_returns_shape. eauto.
  - now apply row_throws_outside_shape.
  - intros results Hin.
    destruct (rows_throw_on_member result results
                (row_throws_outside_shape result Hn) Hin) as [e He].
    exists e. unfold downloadCsv, csvContent. rewrite He. reflexivity.
Qed.

(** X21 at the result whose cited evidence is a text. *)
Lemma misshapen_result_breaks_both_witness :
  (exists e, detailsText gina = Throw e) /\
  (exists e, row gina = Throw e) /\
  (forall results, In gina results -> exists e, downloadCsv results = Throw e).
Proof.
  apply (misshapen_result_breaks_both gina).
  intros (d & ce & Hd & Hce & Hj).
  injection Hd as <-. injection Hce as <-. discriminate Hj.
Defined.

(** X22: for a result without evaluation details, the text of the details
    shows [N/A] for the justification, for the competency scores and for
    the cited evidence, and nothing else under the three headings. *)
Theorem detailsText_missing_details (result : value) :
  get result "evaluation_details" = Normal VUndefined ->
  detailsText result =
  Normal "Justification:
N/A

Competency Scores:
N/A

Cited Evidence:
N/A".
Proof.
  intros H. unfold detailsText, detail. rewrite H. reflexivity.
Qed.

(** X22 at the result [bob]. *)
Lemma detailsText_missing_details_witness :
  detailsText bob =
  Normal "Justification:
N/A

Competency Scores:
N/A

Cited Evidence:
N/A".
Proof. apply (detailsText_missing_details bob). reflexivity. Defined.

(** X23: the file name, the score and the pass/fail status survive the
    export as they are: for every result on which a row is produced,
    reading the first three fields back as quoted CSV fields gives
    [String(file_name)], [String(score)] and the text of the status (or
    [N/A] when the status is falsy), whatever double quotes, commas or
    line breaks these texts hold. *)
Theorem plain_fields_round_trip (result d fn sc pf : value) :
  Result_shape result ->
  details result = Normal d ->
  get result "file_name" = Normal fn ->
  get result "score" = Normal sc ->
  get d "pass_fail_status" = Normal pf ->
  read_back 0 result = Normal (Some (ToString fn)) /\
  read_back 1 result = Normal (Some (ToString sc)) /\
  read_back 2 result = Normal (Some (ToString (or_else pf (VStr "N/A")))).
Proof.
  intros Hs Hd Hfn Hsc Hpf.
  destruct (fields_shape result Hs)
    as (d' & fn' & sc' & pf' & ju & ce & cs & Hd' & Hfn' & Hsc' & Hpf' & _ & _ & _ & Hf).
  rewrite Hd in Hd'. injection Hd' as <-.
  rewrite Hfn in Hfn'. injection Hfn' as <-.
  rewrite Hsc in Hsc'. injection Hsc' as <-.
  rewrite Hpf in Hpf'. injection Hpf' as <-.
  unfold read_back, exported_field. rewrite Hf. cbn [bind map nth].
  rewrite !csv_unquote_quoteField. repeat split; reflexivity.
Qed.

(** X23 at a result whose file name holds double quotes, a comma and a
    line break. *)
Lemma plain_fields_round_trip_witness :
  read_back 0 heidi =
    Normal (Some (ToString (VStr (dq "Heidi 'H', CV" ++ newline ++ "(2).pdf")))) /\
  read_back 1 heidi = Normal (Some (ToString (VNum 90))) /\
  read_back 2 heidi =
    Normal (Some (ToString (or_else (VStr (dq "'Pass', provisionally")) (VStr "N/A")))).
Proof.
  apply (plain_fields_round_trip heidi heidi_details).
  - exists heidi_details, VUndefined. repeat split; reflexivity.
  - reflexivity.
  - reflexivity.
  - reflexivity.
  - reflexivity.
Defined.

(** ** Every competency is exported once *)







(** ** The fields written by JSON.stringify hold no line break *)










